(** * Ingestion and alerting pipeline of the environmental monitor

    A shallow embedding of [src/data_collector.py] (class
    [SensorDataCollector]) and of the part of [config/settings.py] it
    reads, followed by the properties of the pipeline.

    Conventions of the embedding:
    - a Python [float] is an IEEE-754 binary64 value, written as a
      [spec_float] of the Standard Library (NaN, infinities and signed
      zeros included); [<] and [>] are [SFltb];
    - a decoded JSON document is a [json] tree; a Python [dict] is an
      association list read by first match;
    - everything the collector touches outside its own code (wall clock,
      SQLite, HTTP, the file system) is an oracle of [Env], read through
      counters kept in the [World];
    - Python built-ins whose text is not part of the repository
      ([json.loads], [json.dumps], [float(str)], [int(str)], the format
      specs [.1f] and [.2f]) are fields of [Runtime];
    - a method is a computation in the monad [M]: it threads the [World]
      and may raise a Python exception. *)

From Stdlib Require Import ZArith List String Ascii Bool Lia DecimalString.
From Stdlib Require Import Floats.SpecFloat.
Import ListNotations.
Open Scope string_scope.
Open Scope Z_scope.

(** ** Python floats *)

Module PyFloat.

Definition float := spec_float.

Definition prec : Z := 53.
Definition emax : Z := 1024.

(** [m * 2^e], rounded to nearest even. *)
Definition of_scaled (m e : Z) : float := binary_normalize prec emax m e false.

Definition of_Z (z : Z) : float := of_scaled z 0.

Definition zero : float := S754_zero false.
Definition one : float := of_Z 1.

(** Python [a < b] and [a > b] on floats. *)
Definition lt (a b : float) : bool := SFltb a b.
Definition gt (a b : float) : bool := SFltb b a.
(** Python [a == b] on floats. *)
Definition eqb (a b : float) : bool := SFeqb a b.

Definition is_nan (a : float) : bool :=
  match a with S754_nan => true | _ => false end.

End PyFloat.

Abbreviation float := PyFloat.float.

(** ** Python exceptions and results *)

Inductive exn : Type :=
| TypeError
| AttributeError
| ValueError
| OverflowError
| JSONDecodeError
| RecursionError
| UnicodeDecodeError
| SqliteError
| RequestException
| OSError.

Definition exn_eqb (a b : exn) : bool :=
  match a, b with
  | TypeError, TypeError | AttributeError, AttributeError
  | ValueError, ValueError | OverflowError, OverflowError
  | JSONDecodeError, JSONDecodeError
  | RecursionError, RecursionError
  | UnicodeDecodeError, UnicodeDecodeError
  | SqliteError, SqliteError | RequestException, RequestException
  | OSError, OSError => true
  | _, _ => false
  end.

Inductive result (A : Type) : Type :=
| Ok (a : A)
| Raise (e : exn).
Arguments Ok {A} a.
Arguments Raise {A} e.

(** ** JSON documents as Python values *)

#[warnings="-register-all"]
Inductive json : Type :=
| JNull
| JBool (b : bool)
| JInt (z : Z)
| JFloat (f : float)
| JStr (s : string)
| JArr (l : list json)
| JObj (d : list (string * json)).

Fixpoint dict_get (k : string) (d : list (string * json)) : option json :=
  match d with
  | [] => None
  | (k', v) :: d' => if String.eqb k k' then Some v else dict_get k d'
  end.

(** [needle in hay] on two strings: substring test. *)
Fixpoint str_contains (needle hay : string) : bool :=
  String.prefix needle hay
  || match hay with
     | EmptyString => false
     | String _ hay' => str_contains needle hay'
     end.

Definition is_the_str (k : string) (v : json) : bool :=
  match v with JStr s => String.eqb k s | _ => false end.

(** [k in v] for a string [k]: key of a dict, element of a list,
    substring of a string; a [TypeError] on anything else. *)
Definition py_in (k : string) (v : json) : result bool :=
  match v with
  | JObj d => Ok (match dict_get k d with Some _ => true | None => false end)
  | JArr l => Ok (existsb (is_the_str k) l)
  | JStr s => Ok (str_contains k s)
  | JNull | JBool _ | JInt _ | JFloat _ => Raise TypeError
  end.

(** [v[k]] for a string [k] that the caller has found [in v]. *)
Definition py_getitem (v : json) (k : string) : result json :=
  match v with
  | JObj d => match dict_get k d with Some x => Ok x | None => Raise TypeError end
  | _ => Raise TypeError
  end.

Definition dict_get_or (k : string) (d : list (string * json))
    (default : json) : json :=
  match dict_get k d with
  | Some x => x
  | None => default
  end.

(** [v.get(k, default)]: only a dict has the method. *)
Definition py_get (v : json) (k : string) (default : json) : result json :=
  match v with
  | JObj d => Ok (dict_get_or k d default)
  | _ => Raise AttributeError
  end.

(** ** Python strings *)

(** A [str] is modelled by the bytes of its UTF-8 encoding. *)

Definition is_space (c : ascii) : bool :=
  let n := nat_of_ascii c in
  (((9 <=? n) && (n <=? 13)) || ((28 <=? n) && (n <=? 32)))%nat.

Definition bytes (l : list Z) : string :=
  string_of_list_ascii (map (fun b => ascii_of_N (Z.to_N b)) l).

(** The characters beyond ASCII for which [str.isspace()] holds, encoded:
    U+0085, U+00A0, U+1680, U+2000 to U+200A, U+2028, U+2029, U+202F,
    U+205F and U+3000. *)
Definition wide_spaces : list string :=
  map bytes
    [[194; 133]; [194; 160]; [225; 154; 128];
     [226; 128; 128]; [226; 128; 129]; [226; 128; 130]; [226; 128; 131];
     [226; 128; 132]; [226; 128; 133]; [226; 128; 134]; [226; 128; 135];
     [226; 128; 136]; [226; 128; 137]; [226; 128; 138];
     [226; 128; 168]; [226; 128; 169]; [226; 128; 175];
     [226; 129; 159]; [227; 128; 128]].

(** The number of bytes of the whitespace character that [s] starts
    with, 0 when it starts with none. *)
Definition space_width (s : string) : nat :=
  match s with
  | EmptyString => O
  | String c _ =>
      if is_space c then 1%nat
      else match find (fun sp => String.prefix sp s) wide_spaces with
           | Some sp => String.length sp
           | None => O
           end
  end.

(** [s.lstrip()]; [skip] counts the bytes still to drop of a whitespace
    character already recognised. *)
Fixpoint lstrip_from (skip : nat) (s : string) : string :=
  match s with
  | EmptyString => EmptyString
  | String _ s' =>
      match skip with
      | S k => lstrip_from k s'
      | O =>
          match space_width s with
          | O => s
          | S k => lstrip_from k s'
          end
      end
  end.

Definition lstrip (s : string) : string := lstrip_from 0 s.

(** [s.rstrip()]: what is left of the text from a byte on is dropped
    when it is one whitespace character. *)
Fixpoint rstrip (s : string) : string :=
  match s with
  | EmptyString => EmptyString
  | String c s' =>
      let r := String c (rstrip s') in
      if (space_width r =? String.length r)%nat then EmptyString else r
  end.

Definition strip (s : string) : string := rstrip (lstrip s).

Definition newline : ascii := ascii_of_nat 10.

(** [s.split('\n')]. *)
Fixpoint split_lines (s : string) : list string :=
  match s with
  | EmptyString => [EmptyString]
  | String c s' =>
      if Ascii.eqb c newline then EmptyString :: split_lines s'
      else match split_lines s' with
           | [] => [String c EmptyString]
           | l :: ls => String c l :: ls
           end
  end.

Definition nonempty (s : string) : bool :=
  match s with EmptyString => false | _ => true end.

(** ** Configuration ([config/settings.py]) *)

(** The dict [Config.SENSOR_FIELDS]: logical name to provider field key. *)
Record SensorFields : Type := {
  sf_battery : string;
  sf_humidity : string;
  sf_motion : string;
  sf_temperature : string
}.

Record Config : Type := {
  TTN_DEVICE_ID : string;
  HISTORICAL_DATA_HOURS : Z;
  SENSOR_FIELDS : SensorFields;
  TEMPERATURE_MIN : float;
  TEMPERATURE_MAX : float;
  HUMIDITY_MIN : float;
  HUMIDITY_MAX : float;
  BATTERY_LOW : float
}.

(** The values of the class [Config] as shipped. *)
Definition settings : Config := {|
  TTN_DEVICE_ID := "lht65n-01-temp-humidity-sensor";
  HISTORICAL_DATA_HOURS := 48;
  SENSOR_FIELDS := {| sf_battery := "field1";
                      sf_humidity := "field3";
                      sf_motion := "field4";
                      sf_temperature := "field5" |};
  TEMPERATURE_MIN := PyFloat.of_Z 15;
  TEMPERATURE_MAX := PyFloat.of_Z 35;
  HUMIDITY_MIN := PyFloat.of_Z 30;
  HUMIDITY_MAX := PyFloat.of_Z 80;
  BATTERY_LOW := PyFloat.of_Z 3
|}.

(** ** The SQLite store *)

(** A value bound to a [?] placeholder. *)
Inductive sqlval : Type :=
| SqlNull
| SqlInt (z : Z)
| SqlReal (f : float)
| SqlText (s : string).

Definition fits_int64 (z : Z) : bool :=
  (- 2 ^ 63 <=? z) && (z <? 2 ^ 63).

(** A Python [float] as SQLite stores it: a NaN becomes NULL. *)
Definition sql_real (f : float) : sqlval :=
  if PyFloat.is_nan f then SqlNull else SqlReal f.

(** What the [sqlite3] module binds for a Python value; a list or a dict
    is not supported, and an [int] must fit 64 bits. The value is kept
    as bound: the conversions of column affinity are not modelled. *)
Definition sql_bind (v : json) : result sqlval :=
  match v with
  | JNull => Ok SqlNull
  | JBool b => Ok (SqlInt (if b then 1 else 0))
  | JInt z => if fits_int64 z then Ok (SqlInt z) else Raise SqliteError
  | JFloat f => Ok (sql_real f)
  | JStr s => Ok (SqlText s)
  | JArr _ | JObj _ => Raise SqliteError
  end.

(** A row of [sensor_readings]. *)
Record ReadingRow : Type := {
  r_id : nat;
  r_timestamp : sqlval;
  r_temperature : sqlval;
  r_humidity : sqlval;
  r_battery_voltage : sqlval;
  r_motion_count : Z;
  r_device_id : string;
  r_raw_data : string;
  r_created_at : string
}.

(** A row of [alerts]. *)
Record AlertRow : Type := {
  a_id : nat;
  a_timestamp : string;
  a_alert_type : string;
  a_message : string;
  a_value : sqlval;
  a_threshold : sqlval;
  a_resolved : bool;
  a_created_at : string
}.

(** The tuples that [check_alerts] collects:
    [(alert_type, message, value, threshold)]. *)
Definition alert : Type := (string * string * float * float)%type.

Definition alert_type (a : alert) : string := fst (fst (fst a)).

(** ** Log records *)

Inductive level : Type := INFO | WARNING | ERROR.

Inductive log_msg : Type :=
| DatabaseInitialized
| DataSaved (temperature humidity battery : float)
| DatabaseError (e : exn)
| AlertLogged (message : string)
| ErrorSavingAlerts (e : exn)
| HistoricalFetched
| ErrorParsingLine (e : exn)
| ProcessedRecords (processed_count : nat)
| FetchFailed (status_code : Z)
| ExceptionFetching (e : exn)
| NoUplinkMessage
| NoDecodedPayload
| NewReading (received_at : json) (temperature humidity battery : float) (motion : Z)
| ErrorProcessing (e : exn)
| ErrorInOnMessage (e : exn).

(** ** The world and its oracles *)

(** A fault injected into one database connection: the call of that
    index on the connection raises ([connect] is call 0). *)
Inductive db_fault : Type :=
| NoFault
| RaiseAt (j : nat).

Definition faulty (f : db_fault) (j : nat) : bool :=
  match f with
  | NoFault => false
  | RaiseAt i => Nat.eqb i j
  end.

Record Response : Type := {
  status_code : Z;
  text : string
}.

Record Env : Type := {
  (** the [k]-th evaluation of [datetime.now().isoformat()] *)
  now_isoformat : nat -> string;
  (** the fault of the [k]-th connection opened *)
  connection_fault : nat -> db_fault;
  (** SQLite's [CURRENT_TIMESTAMP] during the [k]-th connection *)
  current_timestamp : nat -> string;
  (** the outcome of [requests.get] *)
  requests_get : result Response;
  (** whether the [k]-th [open(..., "w")] and write raises *)
  write_fails : nat -> bool
}.

Record World : Type := {
  sensor_readings : list ReadingRow;
  (** largest [id] ever given in [sensor_readings] (AUTOINCREMENT) *)
  sensor_readings_seq : nat;
  alerts : list AlertRow;
  alerts_seq : nat;
  log : list (level * log_msg);
  (** calls of [datetime.now()] so far *)
  clock_reads : nat;
  (** connections opened so far *)
  connections : nat;
  (** files written so far *)
  file_writes : nat
}.

(** Python built-ins used by the collector. *)
Record Runtime : Type := {
  (** [json.loads]: a malformed document raises [JSONDecodeError]; a
      document nested too deep raises [RecursionError] and an integer
      literal that is too long a plain [ValueError] *)
  json_loads : string -> result json;
  json_dumps : json -> string;
  float_of_str : string -> option float;
  int_of_str : string -> option Z;
  (** [f"{x:.1f}"] and [f"{x:.2f}"] *)
  format_1f : float -> string;
  format_2f : float -> string;
  (** [bytes.decode()] *)
  bytes_decode : string -> option string
}.

(** ** The monad of methods: state and exceptions *)

Definition M (A : Type) : Type := World -> result A * World.

Definition ret {A : Type} (a : A) : M A := fun w => (Ok a, w).

Definition raise {A : Type} (e : exn) : M A := fun w => (Raise e, w).

Definition bind {A B : Type} (m : M A) (k : A -> M B) : M B :=
  fun w =>
    match m w with
    | (Ok a, w') => k a w'
    | (Raise e, w') => (Raise e, w')
    end.

Definition lift {A : Type} (r : result A) : M A := fun w => (r, w).

(** [try: body except Exception as e: handler e]. *)
Definition try_except {A : Type} (body : M A) (handler : exn -> M A) : M A :=
  fun w =>
    match body w with
    | (Ok a, w') => (Ok a, w')
    | (Raise e, w') => handler e w'
    end.

(** [try: body except cls as e: handler e]. *)
Definition try_except_only {A : Type} (cls : exn) (body : M A)
    (handler : exn -> M A) : M A :=
  fun w =>
    match body w with
    | (Ok a, w') => (Ok a, w')
    | (Raise e, w') => if exn_eqb e cls then handler e w' else (Raise e, w')
    end.

Declare Scope monad_scope.
Delimit Scope monad_scope with monad.
Notation "x <- c ;; k" := (bind c (fun x => k))
  (at level 61, c at next level, right associativity) : monad_scope.
Notation "c ;; k" := (bind c (fun _ => k))
  (at level 61, right associativity) : monad_scope.
Open Scope monad_scope.

(** The final world and the returned value of a run. *)
Definition exec {A : Type} (m : M A) (w : World) : World := snd (m w).
Definition eval {A : Type} (m : M A) (w : World) : result A := fst (m w).

(** ** Field updates of the world *)

Definition with_log (l : list (level * log_msg)) (w : World) : World :=
  {| sensor_readings := sensor_readings w;
     sensor_readings_seq := sensor_readings_seq w;
     alerts := alerts w;
     alerts_seq := alerts_seq w;
     log := l;
     clock_reads := clock_reads w;
     connections := connections w;
     file_writes := file_writes w |}.

Definition with_clock_reads (n : nat) (w : World) : World :=
  {| sensor_readings := sensor_readings w;
     sensor_readings_seq := sensor_readings_seq w;
     alerts := alerts w;
     alerts_seq := alerts_seq w;
     log := log w;
     clock_reads := n;
     connections := connections w;
     file_writes := file_writes w |}.

Definition with_connections (n : nat) (w : World) : World :=
  {| sensor_readings := sensor_readings w;
     sensor_readings_seq := sensor_readings_seq w;
     alerts := alerts w;
     alerts_seq := alerts_seq w;
     log := log w;
     clock_reads := clock_reads w;
     connections := n;
     file_writes := file_writes w |}.

Definition with_file_writes (n : nat) (w : World) : World :=
  {| sensor_readings := sensor_readings w;
     sensor_readings_seq := sensor_readings_seq w;
     alerts := alerts w;
     alerts_seq := alerts_seq w;
     log := log w;
     clock_reads := clock_reads w;
     connections := connections w;
     file_writes := n |}.

(** The tables after a commit of the pending rows. *)
Definition with_committed (rs : list ReadingRow) (als : list AlertRow)
    (w : World) : World :=
  {| sensor_readings := (sensor_readings w ++ rs)%list;
     sensor_readings_seq := (sensor_readings_seq w + List.length rs)%nat;
     alerts := (alerts w ++ als)%list;
     alerts_seq := (alerts_seq w + List.length als)%nat;
     log := log w;
     clock_reads := clock_reads w;
     connections := connections w;
     file_writes := file_writes w |}.

(** The database file before the first run: both tables empty. *)
Definition empty_world : World :=
  {| sensor_readings := [];
     sensor_readings_seq := 0;
     alerts := [];
     alerts_seq := 0;
     log := [];
     clock_reads := 0;
     connections := 0;
     file_writes := 0 |}.

(** ** A database connection *)

Record Connection : Type := {
  c_fault : db_fault;
  (** calls made on the connection so far, [connect] included *)
  c_calls : nat;
  c_current_timestamp : string;
  (** rows inserted and not yet committed *)
  pending_readings : list ReadingRow;
  pending_alerts : list AlertRow
}.

Definition is_null (v : sqlval) : bool :=
  match v with SqlNull => true | _ => false end.

(** ** The collector ([class SensorDataCollector]) *)

Section Collector.

Variable py : Runtime.
Variable env : Env.
(** [self.config] *)
Variable config : Config.

(** *** Primitives of the environment *)

Definition logger (lv : level) (msg : log_msg) : M unit :=
  fun w => (Ok tt, with_log (log w ++ [(lv, msg)])%list w).

(** [datetime.now().isoformat()] *)
Definition datetime_now_isoformat : M string :=
  fun w => (Ok (now_isoformat env (clock_reads w)),
            with_clock_reads (S (clock_reads w)) w).

(** [with open(path, "w") as f: f.write(...)] *)
Definition write_file : M unit :=
  fun w =>
    let w' := with_file_writes (S (file_writes w)) w in
    if write_fails env (file_writes w) then (Raise OSError, w')
    else (Ok tt, w').

(** [sqlite3.connect(self.config.DATABASE_PATH)] *)
Definition sqlite3_connect : M Connection :=
  fun w =>
    let k := connections w in
    let w' := with_connections (S k) w in
    if faulty (connection_fault env k) 0 then (Raise SqliteError, w')
    else (Ok {| c_fault := connection_fault env k;
                c_calls := 1;
                c_current_timestamp := current_timestamp env k;
                pending_readings := [];
                pending_alerts := [] |}, w').

(** One more call on a connection: it raises when the connection's
    fault is scheduled for that call. *)
Definition db_call (c : Connection) : M Connection :=
  if faulty (c_fault c) (c_calls c) then raise SqliteError
  else ret {| c_fault := c_fault c;
              c_calls := S (c_calls c);
              c_current_timestamp := c_current_timestamp c;
              pending_readings := pending_readings c;
              pending_alerts := pending_alerts c |}.

(** [INSERT INTO sensor_readings (timestamp, temperature, humidity,
    battery_voltage, motion_count, device_id, raw_data) VALUES (...)]
    under the schema of [setup_database]: [id] is the next
    AUTOINCREMENT value, [timestamp] is NOT NULL, [created_at] defaults
    to CURRENT_TIMESTAMP, and no column is UNIQUE. *)
Definition execute_insert_reading (c : Connection) (timestamp : json)
    (temperature humidity battery : float) (motion : Z)
    (device_id raw_data : string) : M Connection :=
  c1 <- db_call c ;;
  ts <- lift (sql_bind timestamp) ;;
  if is_null ts || negb (fits_int64 motion) then raise SqliteError
  else
    fun w =>
      let row := {| r_id := S (sensor_readings_seq w
                               + List.length (pending_readings c1));
                    r_timestamp := ts;
                    r_temperature := sql_real temperature;
                    r_humidity := sql_real humidity;
                    r_battery_voltage := sql_real battery;
                    r_motion_count := motion;
                    r_device_id := device_id;
                    r_raw_data := raw_data;
                    r_created_at := c_current_timestamp c1 |} in
      (Ok {| c_fault := c_fault c1;
             c_calls := c_calls c1;
             c_current_timestamp := c_current_timestamp c1;
             pending_readings := (pending_readings c1 ++ [row])%list;
             pending_alerts := pending_alerts c1 |}, w).

(** [INSERT INTO alerts (timestamp, alert_type, message, value,
    threshold) VALUES (...)]; [resolved] defaults to FALSE. *)
Definition execute_insert_alert (c : Connection) (timestamp : string)
    (a : alert) : M Connection :=
  c1 <- db_call c ;;
  fun w =>
    let '(alert_type, message, value, threshold) := a in
    let row := {| a_id := S (alerts_seq w + List.length (pending_alerts c1));
                  a_timestamp := timestamp;
                  a_alert_type := alert_type;
                  a_message := message;
                  a_value := sql_real value;
                  a_threshold := sql_real threshold;
                  a_resolved := false;
                  a_created_at := c_current_timestamp c1 |} in
    (Ok {| c_fault := c_fault c1;
           c_calls := c_calls c1;
           c_current_timestamp := c_current_timestamp c1;
           pending_readings := pending_readings c1;
           pending_alerts := (pending_alerts c1 ++ [row])%list |}, w).

(** [conn.commit()]: the pending rows reach the tables. *)
Definition commit (c : Connection) : M Connection :=
  c1 <- db_call c ;;
  fun w =>
    (Ok {| c_fault := c_fault c1;
           c_calls := c_calls c1;
           c_current_timestamp := c_current_timestamp c1;
           pending_readings := [];
           pending_alerts := [] |},
     with_committed (pending_readings c1) (pending_alerts c1) w).

(** [conn.close()]: what is still pending is dropped. *)
Definition close (c : Connection) : M unit :=
  _ <- db_call c ;; ret tt.

(** *** Coercions of decoded fields *)

(** [float(v)] *)
Definition py_float (v : json) : result float :=
  match v with
  | JFloat f => Ok f
  | JInt z =>
      match PyFloat.of_Z z with
      | S754_infinity _ => Raise OverflowError
      | f => Ok f
      end
  | JBool b => Ok (if b then PyFloat.one else PyFloat.zero)
  | JStr s =>
      match float_of_str py s with
      | Some f => Ok f
      | None => Raise ValueError
      end
  | JNull | JArr _ | JObj _ => Raise TypeError
  end.

(** [int(v)]; a float is truncated towards zero. *)
Definition py_int (v : json) : result Z :=
  match v with
  | JInt z => Ok z
  | JBool b => Ok (if b then 1 else 0)
  | JFloat f =>
      match f with
      | S754_nan => Raise ValueError
      | S754_infinity _ => Raise OverflowError
      | S754_zero _ => Ok 0
      | S754_finite s m e =>
          let a := Z.shiftl (Zpos m) e in
          Ok (if s then - a else a)
      end
  | JStr s =>
      match int_of_str py s with
      | Some z => Ok z
      | None => Raise ValueError
      end
  | JNull | JArr _ | JObj _ => Raise TypeError
  end.

(** *** Methods *)

(** [setup_database], from [sqlite3.connect] on (the data directory is
    taken to be in place): [CREATE TABLE IF NOT EXISTS] twice and
    [CREATE INDEX IF NOT EXISTS]; rows already there are kept. It has
    no [try]: a failure propagates. *)
Definition setup_database : M unit :=
  conn <- sqlite3_connect ;;
  conn <- db_call conn ;;
  conn <- db_call conn ;;
  conn <- db_call conn ;;
  conn <- commit conn ;;
  close conn ;;
  logger INFO DatabaseInitialized.

Definition save_sensor_data (temperature humidity battery : float)
    (motion : Z) (timestamp : json) (raw_data : string) : M bool :=
  try_except
    (conn <- sqlite3_connect ;;
     conn <- execute_insert_reading conn timestamp temperature humidity
               battery motion (TTN_DEVICE_ID config) raw_data ;;
     conn <- commit conn ;;
     close conn ;;
     logger INFO (DataSaved temperature humidity battery) ;;
     ret true)
    (fun e =>
       logger ERROR (DatabaseError e) ;;
       ret false).

(** The body of the loop of [save_alerts]. *)
Fixpoint insert_alerts (conn : Connection) (alerts : list alert)
    : M Connection :=
  match alerts with
  | [] => ret conn
  | a :: rest =>
      timestamp <- datetime_now_isoformat ;;
      conn <- execute_insert_alert conn timestamp a ;;
      logger WARNING (AlertLogged (snd (fst (fst a)))) ;;
      insert_alerts conn rest
  end.

(** [save_alerts] returns [None] on both paths. *)
Definition save_alerts (alerts : list alert) : M unit :=
  try_except
    (conn <- sqlite3_connect ;;
     conn <- insert_alerts conn alerts ;;
     conn <- commit conn ;;
     close conn)
    (fun e => logger ERROR (ErrorSavingAlerts e)).

(** The local list [alerts] of [check_alerts] when its three [if]
    statements are done. *)
Definition temperature_alerts (temperature : float) : list alert :=
  if PyFloat.lt temperature (TEMPERATURE_MIN config) then
    [("TEMP_LOW",
      ("Temperature too low: " ++ format_1f py temperature ++ "°C")%string,
      temperature, TEMPERATURE_MIN config)]
  else if PyFloat.gt temperature (TEMPERATURE_MAX config) then
    [("TEMP_HIGH",
      ("Temperature too high: " ++ format_1f py temperature ++ "°C")%string,
      temperature, TEMPERATURE_MAX config)]
  else [].

Definition humidity_alerts (humidity : float) : list alert :=
  if PyFloat.lt humidity (HUMIDITY_MIN config) then
    [("HUMIDITY_LOW",
      ("Humidity too low: " ++ format_1f py humidity ++ "%")%string,
      humidity, HUMIDITY_MIN config)]
  else if PyFloat.gt humidity (HUMIDITY_MAX config) then
    [("HUMIDITY_HIGH",
      ("Humidity too high: " ++ format_1f py humidity ++ "%")%string,
      humidity, HUMIDITY_MAX config)]
  else [].

Definition battery_alerts (battery : float) : list alert :=
  if PyFloat.lt battery (BATTERY_LOW config) then
    [("BATTERY_LOW",
      ("Battery low: " ++ format_2f py battery ++ "V")%string,
      battery, BATTERY_LOW config)]
  else [].

Definition collected_alerts (temperature humidity battery : float)
    : list alert :=
  (temperature_alerts temperature ++ humidity_alerts humidity
     ++ battery_alerts battery)%list.

Definition check_alerts (temperature humidity battery : float) : M unit :=
  let alerts := collected_alerts temperature humidity battery in
  match alerts with
  | [] => ret tt
  | _ :: _ => save_alerts alerts
  end.

Definition process_message (payload : json) (is_historical : bool)
    : M bool :=
  try_except
    (has_uplink <- lift (py_in "uplink_message" payload) ;;
     if negb has_uplink then
       logger WARNING NoUplinkMessage ;;
       ret false
     else
       uplink <- lift (py_getitem payload "uplink_message") ;;
       has_decoded <- lift (py_in "decoded_payload" uplink) ;;
       if negb has_decoded then
         logger WARNING NoDecodedPayload ;;
         ret false
       else
         decoded <- lift (py_getitem uplink "decoded_payload") ;;
         fallback <- datetime_now_isoformat ;;
         received_at <- lift (py_get uplink "received_at" (JStr fallback)) ;;
         v <- lift (py_get decoded (sf_temperature (SENSOR_FIELDS config))
                      (JFloat PyFloat.zero)) ;;
         temperature <- lift (py_float v) ;;
         v <- lift (py_get decoded (sf_humidity (SENSOR_FIELDS config))
                      (JFloat PyFloat.zero)) ;;
         humidity <- lift (py_float v) ;;
         v <- lift (py_get decoded (sf_battery (SENSOR_FIELDS config))
                      (JFloat PyFloat.zero)) ;;
         battery <- lift (py_float v) ;;
         v <- lift (py_get decoded (sf_motion (SENSOR_FIELDS config))
                      (JInt 0)) ;;
         motion <- lift (py_int v) ;;
         success <- save_sensor_data temperature humidity battery motion
                      received_at (json_dumps py payload) ;;
         (if success && negb is_historical then
            check_alerts temperature humidity battery ;;
            logger INFO (NewReading received_at temperature humidity
                           battery motion)
          else ret tt) ;;
         ret success)
    (fun e =>
       logger ERROR (ErrorProcessing e) ;;
       ret false).

(** [json.loads(line)] *)
Definition py_json_loads (s : string) : M json :=
  lift (json_loads py s).

(** The [for line in lines] loop of [fetch_historical_data]. *)
Fixpoint process_lines (lines : list string) (processed_count : nat)
    : M nat :=
  match lines with
  | [] => ret processed_count
  | line :: rest =>
      processed_count <-
        (if nonempty (strip line) then
           try_except_only JSONDecodeError
             (data <- py_json_loads line ;;
              ok <- process_message data true ;;
              ret (if ok then S processed_count else processed_count))
             (fun e =>
                logger ERROR (ErrorParsingLine e) ;;
                ret processed_count)
         else ret processed_count) ;;
      process_lines rest processed_count
  end.

Definition fetch_historical_data : M bool :=
  try_except
    (response <- lift (requests_get env) ;;
     if status_code response =? 200 then
       logger INFO HistoricalFetched ;;
       write_file ;;
       let lines := split_lines (strip (text response)) in
       processed_count <- process_lines lines 0 ;;
       logger INFO (ProcessedRecords processed_count) ;;
       ret true
     else
       logger ERROR (FetchFailed (status_code response)) ;;
       ret false)
    (fun e =>
       logger ERROR (ExceptionFetching e) ;;
       ret false).

(** [on_message], given [msg.payload]. *)
Definition on_message (msg_payload : string) : M unit :=
  try_except
    (s <- lift (match bytes_decode py msg_payload with
                | Some s => Ok s
                | None => Raise UnicodeDecodeError
                end) ;;
     payload <- py_json_loads s ;;
     write_file ;;
     process_message payload false ;;
     ret tt)
    (fun e => logger ERROR (ErrorInOnMessage e)).

(** What reaches the collector during [run]: the backfill at startup,
    then one broker message at a time. *)
Inductive event : Type :=
| Backfill
| Message (msg_payload : string).

Definition handle (ev : event) : M unit :=
  match ev with
  | Backfill => fetch_historical_data ;; ret tt
  | Message msg_payload => on_message msg_payload
  end.

Fixpoint handle_all (evs : list event) : M unit :=
  match evs with
  | [] => ret tt
  | ev :: rest => handle ev ;; handle_all rest
  end.

End Collector.

(** ** Concrete runs *)

Module Scenario.

Definition dq : string := String (ascii_of_nat 34) EmptyString.
Definition nl : string := String newline EmptyString.
Definition q (s : string) : string := (dq ++ s ++ dq)%string.

(** The decoded fields of the example of the specification:
    [{field5: "36.0", field3: "50.0", field1: "3.5", field4: "0"}]. *)
Definition decoded_hot : json :=
  JObj [("field1", JStr "3.5"); ("field3", JStr "50.0");
        ("field4", JStr "0"); ("field5", JStr "36.0")].

Definition envelope_at (received_at : string) (decoded : json) : json :=
  JObj [("end_device_ids", JObj [("device_id", JStr "some-other-device")]);
        ("uplink_message",
         JObj [("received_at", JStr received_at);
               ("decoded_payload", decoded)])].

Definition envelope_hot : json :=
  envelope_at "2024-05-01T10:00:00Z" decoded_hot.

(** A second uplink: 10 degrees, 20 percent, 2.5 volts. *)
Definition decoded_cold : json :=
  JObj [("field1", JStr "2.5"); ("field3", JInt 20);
        ("field4", JInt 4); ("field5", JInt 10)].

Definition envelope_cold : json :=
  envelope_at "2024-05-01T10:20:00Z" decoded_cold.

(** An uplink without decoded fields, and one with an empty mapping. *)
Definition envelope_undecoded : json :=
  JObj [("uplink_message", JObj [("received_at", JStr "2024-05-01T10:40:00Z")])].


(** The text of a document, as [json.dumps] writes it (a float is
    written only as [NaN] here: the examples carry none they print). *)
Fixpoint render (v : json) : string :=
  match v with
  | JNull => "null"
  | JBool b => if b then "true" else "false"
  | JInt z => NilZero.string_of_int (Z.to_int z)
  | JFloat _ => "NaN"
  | JStr s => q s
  | JArr l =>
      ("[" ++ (fix items (l : list json) : string :=
                 match l with
                 | [] => ""
                 | [x] => render x
                 | x :: r => render x ++ ", " ++ items r
                 end) l ++ "]")%string
  | JObj d =>
      ("{" ++ (fix items (d : list (string * json)) : string :=
                 match d with
                 | [] => ""
                 | [(k, x)] => q k ++ ": " ++ render x
                 | (k, x) :: r => q k ++ ": " ++ render x ++ ", " ++ items r
                 end) d ++ "}")%string
  end.

Definition line_hot : string := render envelope_hot.
Definition line_cold : string := render envelope_cold.
Definition line_malformed : string := "{not json".
(** A number of five thousand digits: beyond the 4300 that [int] converts
    from text, so that [json.loads] raises a plain [ValueError]. *)
Definition line_digits : string :=
  String.concat "" (List.repeat "1" (50 * 100)).

Definition table_lookup {A : Type} (t : list (string * A)) (s : string)
    : option A :=
  match find (fun kv => String.eqb s (fst kv)) t with
  | Some kv => Some (snd kv)
  | None => None
  end.

(** A runtime that knows the documents and numerals of the examples. *)
Definition py : Runtime :=
  {| json_loads := fun s =>
       match table_lookup [(line_hot, Ok envelope_hot);
                           (line_cold, Ok envelope_cold);
                           (line_digits, Raise ValueError)] s with
       | Some r => r
       | None => Raise JSONDecodeError
       end;
     json_dumps := render;
     float_of_str := table_lookup [("36.0", PyFloat.of_Z 36);
                                   ("50.0", PyFloat.of_Z 50);
                                   ("3.5", PyFloat.of_scaled 7 (-1));
                                   ("2.5", PyFloat.of_scaled 5 (-1))];
     int_of_str := table_lookup [("0", 0)];
     format_1f := fun x =>
       if PyFloat.eqb x (PyFloat.of_Z 36) then "36.0" else "?";
     format_2f := fun _ => "?";
     bytes_decode := fun s => Some s |}.

Definition clock (k : nat) : string :=
  match k with
  | O => "2026-11-04T09:00:00.000000"
  | S O => "2026-11-04T09:00:00.000250"
  | _ => "2026-11-04T09:00:01.000000"
  end.

Definition response_of (body : string) : result Response :=
  Ok {| status_code := 200; text := body |}.

(** An environment whose backfill answers [body] and whose database
    connections fail as [faults] says. *)
Definition env_of (body : string) (faults : nat -> db_fault) : Env :=
  {| now_isoformat := clock;
     connection_fault := faults;
     current_timestamp := fun _ => "2026-11-04 09:00:00";
     requests_get := response_of body;
     write_fails := fun _ => false |}.

(** No fault at all. *)
Definition env_with (body : string) : Env :=
  env_of body (fun _ => NoFault).

(** The database cannot be opened for the second connection, the one
    that [save_alerts] asks for after a reading was saved. *)
Definition env_alerts_down : Env :=
  env_of "" (fun k => match k with
                      | 1%nat => RaiseAt 0
                      | _ => NoFault
                      end).

(** Three lines, the second malformed; and one line only. *)
Definition body3 : string :=
  (line_hot ++ nl ++ line_malformed ++ nl ++ line_cold ++ nl)%string.

(** Three lines, the second a number too long. *)
Definition body_digits : string :=
  (line_hot ++ nl ++ line_digits ++ nl ++ line_cold ++ nl)%string.

(** A batch as [check_alerts] collects it. *)
Definition batch_hot : list alert :=
  [("TEMP_HIGH", "Temperature too high: 36.0°C",
    PyFloat.of_Z 36, PyFloat.of_Z 35)].

End Scenario.


(** ** What a run added to the tables *)

Definition added_readings (w w' : World) : list ReadingRow :=
  skipn (List.length (sensor_readings w)) (sensor_readings w').

Definition added_alerts (w w' : World) : list AlertRow :=
  skipn (List.length (alerts w)) (alerts w').

Definition same_readings (w w' : World) : Prop :=
  sensor_readings w' = sensor_readings w
  /\ sensor_readings_seq w' = sensor_readings_seq w.

Definition same_alerts (w w' : World) : Prop :=
  alerts w' = alerts w /\ alerts_seq w' = alerts_seq w.

(** The row that [save_sensor_data] writes on connection [k]. *)
Definition reading_row (env : Env) (config : Config) (w : World) (k : nat)
    (ts : sqlval) (temperature humidity battery : float) (motion : Z)
    (raw_data : string) : ReadingRow :=
  {| r_id := S (sensor_readings_seq w);
     r_timestamp := ts;
     r_temperature := sql_real temperature;
     r_humidity := sql_real humidity;
     r_battery_voltage := sql_real battery;
     r_motion_count := motion;
     r_device_id := TTN_DEVICE_ID config;
     r_raw_data := raw_data;
     r_created_at := current_timestamp env k |}.

(** The rows that [save_alerts] writes for a batch on a connection whose
    CURRENT_TIMESTAMP is [created], the first with id [S seq] and the
    clock reading of index [t]. *)
Fixpoint alert_rows (env : Env) (created : string) (seq t : nat)
    (batch : list alert) : list AlertRow :=
  match batch with
  | [] => []
  | a :: rest =>
      {| a_id := S seq;
         a_timestamp := now_isoformat env t;
         a_alert_type := fst (fst (fst a));
         a_message := snd (fst (fst a));
         a_value := sql_real (snd (fst a));
         a_threshold := sql_real (snd a);
         a_resolved := false;
         a_created_at := created |}
      :: alert_rows env created (S seq) (S t) rest
  end.

(** The decoded-fields mapping of an envelope, when it has one. *)
Definition uplink_of (payload : json) : option json :=
  match payload with
  | JObj d => dict_get "uplink_message" d
  | _ => None
  end.

Definition decoded_of (payload : json) : option json :=
  match uplink_of payload with
  | Some (JObj u) => dict_get "decoded_payload" u
  | _ => None
  end.

(** ** Views of [process_message] used by the statements *)

Section Views.

Variable py : Runtime.
Variable env : Env.
Variable config : Config.

(** What [process_message] does once the four fields are extracted. *)
Definition ingest (payload : json) (is_historical : bool)
    (received_at : json) (t h b : float) (m : Z) : M bool :=
  success <- save_sensor_data env config t h b m received_at
               (json_dumps py payload) ;;
  (if success && negb is_historical then
     check_alerts py env config t h b ;;
     logger INFO (NewReading received_at t h b m)
   else ret tt) ;;
  ret success.

(** The envelope is a mapping with an uplink mapping holding a
    decoded-fields mapping whose fields coerce. *)
Definition decodes (payload : json) (u fields : list (string * json))
    (t h b : float) (m : Z) : Prop :=
  uplink_of payload = Some (JObj u)
  /\ dict_get "decoded_payload" u = Some (JObj fields)
  /\ py_float py (dict_get_or (sf_temperature (SENSOR_FIELDS config)) fields
                    (JFloat PyFloat.zero)) = Ok t
  /\ py_float py (dict_get_or (sf_humidity (SENSOR_FIELDS config)) fields
                    (JFloat PyFloat.zero)) = Ok h
  /\ py_float py (dict_get_or (sf_battery (SENSOR_FIELDS config)) fields
                    (JFloat PyFloat.zero)) = Ok b
  /\ py_int py (dict_get_or (sf_motion (SENSOR_FIELDS config)) fields
                  (JInt 0)) = Ok m.

(** The timestamp of the reading: the envelope's, else the clock's. *)
Definition received_at_of (u : list (string * json)) (w : World) : json :=
  dict_get_or "received_at" u (JStr (now_isoformat env (clock_reads w))).

(** The exits of [process_message] that leave the store alone. *)
Definition rejected (payload : json) (hist : bool) (w : World) : Prop :=
  exists w',
    process_message py env config payload hist w = (Ok false, w')
    /\ same_readings w w' /\ same_alerts w w'
    /\ connections w' = connections w
    /\ file_writes w' = file_writes w
    /\ (clock_reads w <= clock_reads w')%nat
    /\ exists lv msg, log w' = (log w ++ [(lv, msg)])%list /\ lv <> INFO.

(** No connection is ever lost between [commit] and [close]. *)
Definition close_never_fails : Prop :=
  forall k, connection_fault env k <> RaiseAt 3.

Definition bears_device_id (r : ReadingRow) : Prop :=
  r_device_id r = TTN_DEVICE_ID config.

(** The body of the loop of [fetch_historical_data], for one line. *)
Definition process_line (line : string) (processed_count : nat) : M nat :=
  if nonempty (strip line) then
    try_except_only JSONDecodeError
      (data <- py_json_loads py line ;;
       ok <- process_message py env config data true ;;
       ret (if ok then S processed_count else processed_count))
      (fun e => logger ERROR (ErrorParsingLine e) ;; ret processed_count)
  else ret processed_count.





(** [json.loads] rejects the line as no JSON document. *)
Definition malformed (line : string) : Prop :=
  json_loads py line = Raise JSONDecodeError.




(** What a step of the backfill keeps: the alerts, the files, and the
    readings but for the rows it appends. *)
Definition line_frame (w w' : World) (rows : list ReadingRow) : Prop :=
  same_alerts w w'
  /\ file_writes w' = file_writes w
  /\ sensor_readings w' = (sensor_readings w ++ rows)%list
  /\ sensor_readings_seq w' = (sensor_readings_seq w + List.length rows)%nat
  /\ Forall bears_device_id rows.

End Views.


(** The metric an alert is about, read from its [alert_type]. *)
Definition is_temperature_alert (a : alert) : bool :=
  String.eqb (alert_type a) "TEMP_LOW" || String.eqb (alert_type a) "TEMP_HIGH".

Definition is_humidity_alert (a : alert) : bool :=
  String.eqb (alert_type a) "HUMIDITY_LOW"
  || String.eqb (alert_type a) "HUMIDITY_HIGH".

Definition is_battery_alert (a : alert) : bool :=
  String.eqb (alert_type a) "BATTERY_LOW".

(** ** Invariants of the two tables *)

(** A tuple collected by [check_alerts] names a threshold of the
    configuration that its value is strictly beyond. *)
Definition alert_sound (config : Config) (a : alert) : Prop :=
  let '(kind, _, value, threshold) := a in
  (kind = "TEMP_LOW" /\ threshold = TEMPERATURE_MIN config
   /\ PyFloat.lt value threshold = true)
  \/ (kind = "TEMP_HIGH" /\ threshold = TEMPERATURE_MAX config
      /\ PyFloat.gt value threshold = true)
  \/ (kind = "HUMIDITY_LOW" /\ threshold = HUMIDITY_MIN config
      /\ PyFloat.lt value threshold = true)
  \/ (kind = "HUMIDITY_HIGH" /\ threshold = HUMIDITY_MAX config
      /\ PyFloat.gt value threshold = true)
  \/ (kind = "BATTERY_LOW" /\ threshold = BATTERY_LOW config
      /\ PyFloat.lt value threshold = true).

(** The same, read off a stored row; the row is unresolved. *)
Definition alert_row_sound (config : Config) (a : AlertRow) : Prop :=
  a_resolved a = false
  /\ exists message value threshold,
       a_value a = SqlReal value
       /\ a_threshold a = SqlReal threshold
       /\ a_message a = message
       /\ alert_sound config (a_alert_type a, message, value, threshold).

(** [w'] is [w] with rows appended to its tables, numbered on from the
    AUTOINCREMENT counters of [w]. *)
Definition appended (config : Config) (w w' : World) : Prop :=
  exists rs als,
    sensor_readings w' = (sensor_readings w ++ rs)%list
    /\ sensor_readings_seq w' = (sensor_readings_seq w + List.length rs)%nat
    /\ map r_id rs = List.seq (S (sensor_readings_seq w)) (List.length rs)
    /\ Forall (bears_device_id config) rs
    /\ alerts w' = (alerts w ++ als)%list
    /\ alerts_seq w' = (alerts_seq w + List.length als)%nat
    /\ map a_id als = List.seq (S (alerts_seq w)) (List.length als)
    /\ Forall (alert_row_sound config) als.

(** The ids of a table are those the counter has given out, in order. *)
Definition well_numbered (w : World) : Prop :=
  map r_id (sensor_readings w) = List.seq 1 (sensor_readings_seq w)
  /\ map a_id (alerts w) = List.seq 1 (alerts_seq w).

(** A computation that relates every world to the one it leaves. *)
Definition respects {A : Type} (R : World -> World -> Prop) (m : M A) : Prop :=
  forall w, R w (snd (m w)).

(** A computation from which no exception escapes. *)
Definition returns {A : Type} (m : M A) : Prop :=
  forall w, exists a, fst (m w) = Ok a.

(** Two worlds that differ in their log at most. *)
Definition eq_but_log (w1 w2 : World) : Prop :=
  sensor_readings w1 = sensor_readings w2
  /\ sensor_readings_seq w1 = sensor_readings_seq w2
  /\ alerts w1 = alerts w2
  /\ alerts_seq w1 = alerts_seq w2
  /\ clock_reads w1 = clock_reads w2
  /\ connections w1 = connections w2
  /\ file_writes w1 = file_writes w2.

(** A computation that never reads the log: from worlds that differ in
    their log at most it gives the same result and such worlds again. *)
Definition log_blind {A : Type} (m : M A) : Prop :=
  forall w1 w2,
    eq_but_log w1 w2 ->
    fst (m w1) = fst (m w2) /\ eq_but_log (snd (m w1)) (snd (m w2)).

(** * Properties *)

(** ** Comparisons of floats *)

Module PyFloatFacts.

Lemma compare_cont_refl (m : positive) : Pos.compare_cont Eq m m = Eq.
Proof. exact (Pos.compare_refl m). Qed.

Lemma lt_irrefl (a : float) : PyFloat.lt a a = false.
Proof.
  unfold PyFloat.lt, SFltb.
  destruct a as [s|s| |s m e]; simpl; try reflexivity.
  - destruct s; reflexivity.
  - rewrite Z.compare_refl, compare_cont_refl. destruct s; reflexivity.
Qed.

(** [a == b] holds for equal values and for the two zeros. *)
Lemma eqb_cases (a b : float) :
  PyFloat.eqb a b = true ->
  a = b \/ (exists s s', a = S754_zero s /\ b = S754_zero s').
Proof.
  unfold PyFloat.eqb, SFeqb.
  destruct a as [s|s| |s m e], b as [s'|s'| |s' m' e']; simpl;
    try discriminate; try (destruct s; discriminate);
    try (destruct s'; discriminate).
  - intros _. right. eauto.
  - destruct s, s'; try discriminate; auto.
  - change (Pos.compare_cont Eq m m') with (Pos.compare m m').
    destruct s, s'; try discriminate;
      destruct (Z.compare_spec e e') as [He| |]; try discriminate;
      destruct (Pos.compare_spec m m') as [Hm| |];
      try discriminate; subst; auto.
Qed.

Lemma lt_zero_l (s s' : bool) (c : float) :
  PyFloat.lt (S754_zero s) c = PyFloat.lt (S754_zero s') c.
Proof. destruct c; reflexivity. Qed.

Lemma lt_zero_r (s s' : bool) (c : float) :
  PyFloat.lt c (S754_zero s) = PyFloat.lt c (S754_zero s').
Proof. destruct c; reflexivity. Qed.

Lemma eqb_lt_l (a b c : float) :
  PyFloat.eqb a b = true -> PyFloat.lt a c = PyFloat.lt b c.
Proof.
  intros H. destruct (eqb_cases a b H) as [->|(s & s' & -> & ->)].
  - reflexivity.
  - apply lt_zero_l.
Qed.

Lemma eqb_lt_r (a b c : float) :
  PyFloat.eqb a b = true -> PyFloat.lt c a = PyFloat.lt c b.
Proof.
  intros H. destruct (eqb_cases a b H) as [->|(s & s' & -> & ->)].
  - reflexivity.
  - apply lt_zero_r.
Qed.

(** Neither [a < b] nor [a > b] when [a == b]. *)
Lemma eqb_not_lt (a b : float) :
  PyFloat.eqb a b = true -> PyFloat.lt a b = false.
Proof. intros H. rewrite (eqb_lt_l a b b H). apply lt_irrefl. Qed.

Lemma eqb_not_gt (a b : float) :
  PyFloat.eqb a b = true -> PyFloat.gt a b = false.
Proof.
  intros H. change (PyFloat.lt b a = false).
  rewrite (eqb_lt_r a b b H). apply lt_irrefl.
Qed.

End PyFloatFacts.

(** ** The alert evaluator *)

Section Evaluator.

Variable py : Runtime.
Variable config : Config.

Lemma temperature_alerts_cases (t : float) :
  temperature_alerts py config t = []
  \/ (PyFloat.lt t (TEMPERATURE_MIN config) = true
      /\ exists a, temperature_alerts py config t = [a] /\ alert_type a = "TEMP_LOW")
  \/ (PyFloat.lt t (TEMPERATURE_MIN config) = false
      /\ PyFloat.gt t (TEMPERATURE_MAX config) = true
      /\ exists a, temperature_alerts py config t = [a] /\ alert_type a = "TEMP_HIGH").
Proof.
  unfold temperature_alerts.
  destruct (PyFloat.lt t (TEMPERATURE_MIN config)).
  - right; left. split; [reflexivity|]. eexists; split; reflexivity.
  - destruct (PyFloat.gt t (TEMPERATURE_MAX config)).
    + right; right. repeat split. eexists; split; reflexivity.
    + left; reflexivity.
Qed.

Lemma humidity_alerts_cases (h : float) :
  humidity_alerts py config h = []
  \/ (PyFloat.lt h (HUMIDITY_MIN config) = true
      /\ exists a, humidity_alerts py config h = [a] /\ alert_type a = "HUMIDITY_LOW")
  \/ (PyFloat.lt h (HUMIDITY_MIN config) = false
      /\ PyFloat.gt h (HUMIDITY_MAX config) = true
      /\ exists a, humidity_alerts py config h = [a] /\ alert_type a = "HUMIDITY_HIGH").
Proof.
  unfold humidity_alerts.
  destruct (PyFloat.lt h (HUMIDITY_MIN config)).
  - right; left. split; [reflexivity|]. eexists; split; reflexivity.
  - destruct (PyFloat.gt h (HUMIDITY_MAX config)).
    + right; right. repeat split. eexists; split; reflexivity.
    + left; reflexivity.
Qed.

Lemma battery_alerts_cases (b : float) :
  (PyFloat.lt b (BATTERY_LOW config) = false /\ battery_alerts py config b = [])
  \/ (PyFloat.lt b (BATTERY_LOW config) = true
      /\ exists a, battery_alerts py config b = [a] /\ alert_type a = "BATTERY_LOW").
Proof.
  unfold battery_alerts.
  destruct (PyFloat.lt b (BATTERY_LOW config)).
  - right. split; [reflexivity|]. eexists; split; reflexivity.
  - left. split; reflexivity.
Qed.

(** Takes the three case lemmas apart and rewrites the collected list
    into a literal one. *)
Ltac alert_cases t h b :=
  unfold collected_alerts;
  destruct (temperature_alerts_cases t)
    as [Et|[(Lt_ & at_ & Et & Kt)|(Lt_ & Gt_ & at_ & Et & Kt)]];
  destruct (humidity_alerts_cases h)
    as [Eh|[(Lh_ & ah_ & Eh & Kh)|(Lh_ & Gh_ & ah_ & Eh & Kh)]];
  destruct (battery_alerts_cases b) as [(Lb_ & Eb)|(Lb_ & ab_ & Eb & Kb)];
  rewrite Et, Eh, Eb; cbn [app map filter List.length].

Lemma collected_alerts_at_most_three (t h b : float) :
  (List.length (collected_alerts py config t h b) <= 3)%nat.
Proof. alert_cases t h b; lia. Qed.

(** C6: the evaluation of one reading collects at most one temperature
    alert, never both TEMP_LOW and TEMP_HIGH, at most one humidity
    alert, never both HUMIDITY_LOW and HUMIDITY_HIGH, and, with the
    battery check, at most three alerts in all. *)
Theorem at_most_one_alert_per_metric (temperature humidity battery : float) :
  let collected := collected_alerts py config temperature humidity battery in
  let kinds := map alert_type collected in
  (List.length (filter is_temperature_alert collected) <= 1)%nat
  /\ ~ (In "TEMP_LOW" kinds /\ In "TEMP_HIGH" kinds)
  /\ (List.length (filter is_humidity_alert collected) <= 1)%nat
  /\ ~ (In "HUMIDITY_LOW" kinds /\ In "HUMIDITY_HIGH" kinds)
  /\ (List.length (filter is_battery_alert collected) <= 1)%nat
  /\ (List.length collected <= 3)%nat.
Proof.
  cbv zeta.
  alert_cases temperature humidity battery;
    unfold is_temperature_alert, is_humidity_alert, is_battery_alert;
    repeat match goal with K : alert_type _ = _ |- _ => rewrite K; clear K end;
    cbn;
    repeat split; try lia;
    intros [H1 H2];
    repeat match goal with
           | H : _ \/ _ |- _ => destruct H
           | H : False |- _ => destruct H
           | H : _ = _ |- _ => discriminate H
           end.
Qed.

Lemma kinds_of_collected (kind : string) (t h b : float) :
  In kind (map alert_type (collected_alerts py config t h b)) ->
  In kind (map alert_type (temperature_alerts py config t))
  \/ In kind (map alert_type (humidity_alerts py config h))
  \/ In kind (map alert_type (battery_alerts py config b)).
Proof.
  unfold collected_alerts. rewrite !map_app, !in_app_iff. tauto.
Qed.

(** Which kinds each check can collect, and on which comparison. *)
Lemma temperature_kind (kind : string) (t : float) :
  In kind (map alert_type (temperature_alerts py config t)) ->
  (kind = "TEMP_LOW" /\ PyFloat.lt t (TEMPERATURE_MIN config) = true)
  \/ (kind = "TEMP_HIGH" /\ PyFloat.gt t (TEMPERATURE_MAX config) = true).
Proof.
  destruct (temperature_alerts_cases t)
    as [E|[(L & a & E & K)|(L & G & a & E & K)]];
    rewrite E; cbn; rewrite ?K; intros H;
    [destruct H | destruct H as [<-|[]]; auto ..].
Qed.

Lemma humidity_kind (kind : string) (h : float) :
  In kind (map alert_type (humidity_alerts py config h)) ->
  (kind = "HUMIDITY_LOW" /\ PyFloat.lt h (HUMIDITY_MIN config) = true)
  \/ (kind = "HUMIDITY_HIGH" /\ PyFloat.gt h (HUMIDITY_MAX config) = true).
Proof.
  destruct (humidity_alerts_cases h)
    as [E|[(L & a & E & K)|(L & G & a & E & K)]];
    rewrite E; cbn; rewrite ?K; intros H;
    [destruct H | destruct H as [<-|[]]; auto ..].
Qed.

Lemma battery_kind (kind : string) (b : float) :
  In kind (map alert_type (battery_alerts py config b)) ->
  kind = "BATTERY_LOW" /\ PyFloat.lt b (BATTERY_LOW config) = true.
Proof.
  destruct (battery_alerts_cases b) as [(L & E)|(L & a & E & K)];
    rewrite E; cbn; rewrite ?K; intros H;
    [destruct H | destruct H as [<-|[]]; auto].
Qed.

(** The comparison that collects an alert of a kind. *)
Lemma collected_kind (kind : string) (t h b : float) :
  In kind (map alert_type (collected_alerts py config t h b)) ->
  (kind = "TEMP_LOW" /\ PyFloat.lt t (TEMPERATURE_MIN config) = true)
  \/ (kind = "TEMP_HIGH" /\ PyFloat.gt t (TEMPERATURE_MAX config) = true)
  \/ (kind = "HUMIDITY_LOW" /\ PyFloat.lt h (HUMIDITY_MIN config) = true)
  \/ (kind = "HUMIDITY_HIGH" /\ PyFloat.gt h (HUMIDITY_MAX config) = true)
  \/ (kind = "BATTERY_LOW" /\ PyFloat.lt b (BATTERY_LOW config) = true).
Proof.
  intros H. destruct (kinds_of_collected _ _ _ _ H) as [H1|[H1|H1]].
  - destruct (temperature_kind _ _ H1); tauto.
  - destruct (humidity_kind _ _ H1); tauto.
  - pose proof (battery_kind _ _ H1); tauto.
Qed.

(** C4: thresholds are exclusive bounds. A value equal (Python [==])
    to a threshold does not raise the alert of that threshold, whatever
    the configuration; and where the minimum of a metric is not above
    its maximum, as in the shipped settings, a value equal to either
    bound raises no alert of that metric at all. *)
Theorem boundary_value_raises_no_alert (temperature humidity battery : float) :
  let kinds :=
    map alert_type (collected_alerts py config temperature humidity battery) in
  (PyFloat.eqb temperature (TEMPERATURE_MIN config) = true ->
   ~ In "TEMP_LOW" kinds)
  /\ (PyFloat.eqb temperature (TEMPERATURE_MAX config) = true ->
      ~ In "TEMP_HIGH" kinds)
  /\ (PyFloat.eqb humidity (HUMIDITY_MIN config) = true ->
      ~ In "HUMIDITY_LOW" kinds)
  /\ (PyFloat.eqb humidity (HUMIDITY_MAX config) = true ->
      ~ In "HUMIDITY_HIGH" kinds)
  /\ (PyFloat.eqb battery (BATTERY_LOW config) = true ->
      ~ In "BATTERY_LOW" kinds /\ battery_alerts py config battery = [])
  /\ (PyFloat.lt (TEMPERATURE_MAX config) (TEMPERATURE_MIN config) = false ->
      PyFloat.eqb temperature (TEMPERATURE_MIN config) = true
      \/ PyFloat.eqb temperature (TEMPERATURE_MAX config) = true ->
      temperature_alerts py config temperature = [])
  /\ (PyFloat.lt (HUMIDITY_MAX config) (HUMIDITY_MIN config) = false ->
      PyFloat.eqb humidity (HUMIDITY_MIN config) = true
      \/ PyFloat.eqb humidity (HUMIDITY_MAX config) = true ->
      humidity_alerts py config humidity = []).
Proof.
  cbv zeta.
  repeat match goal with |- _ /\ _ => split end.
  - intros E H. apply collected_kind in H.
    rewrite (PyFloatFacts.eqb_not_lt _ _ E) in H.
    intuition discriminate.
  - intros E H. apply collected_kind in H.
    rewrite (PyFloatFacts.eqb_not_gt _ _ E) in H.
    intuition discriminate.
  - intros E H. apply collected_kind in H.
    rewrite (PyFloatFacts.eqb_not_lt _ _ E) in H.
    intuition discriminate.
  - intros E H. apply collected_kind in H.
    rewrite (PyFloatFacts.eqb_not_gt _ _ E) in H.
    intuition discriminate.
  - intros E. split.
    + intros H. apply collected_kind in H.
      rewrite (PyFloatFacts.eqb_not_lt _ _ E) in H.
      intuition discriminate.
    + unfold battery_alerts. now rewrite (PyFloatFacts.eqb_not_lt _ _ E).
  - intros O [E|E]; unfold temperature_alerts, PyFloat.gt.
    + rewrite (PyFloatFacts.eqb_not_lt _ _ E).
      change (SFltb (TEMPERATURE_MAX config) temperature)
        with (PyFloat.lt (TEMPERATURE_MAX config) temperature).
      now rewrite (PyFloatFacts.eqb_lt_r _ _ (TEMPERATURE_MAX config) E), O.
    + rewrite (PyFloatFacts.eqb_lt_l _ _ (TEMPERATURE_MIN config) E), O.
      change (SFltb (TEMPERATURE_MAX config) temperature)
        with (PyFloat.gt temperature (TEMPERATURE_MAX config)).
      now rewrite (PyFloatFacts.eqb_not_gt _ _ E).
  - intros O [E|E]; unfold humidity_alerts, PyFloat.gt.
    + rewrite (PyFloatFacts.eqb_not_lt _ _ E).
      change (SFltb (HUMIDITY_MAX config) humidity)
        with (PyFloat.lt (HUMIDITY_MAX config) humidity).
      now rewrite (PyFloatFacts.eqb_lt_r _ _ (HUMIDITY_MAX config) E), O.
    + rewrite (PyFloatFacts.eqb_lt_l _ _ (HUMIDITY_MIN config) E), O.
      change (SFltb (HUMIDITY_MAX config) humidity)
        with (PyFloat.gt humidity (HUMIDITY_MAX config)).
      now rewrite (PyFloatFacts.eqb_not_gt _ _ E).
Qed.

End Evaluator.

(** ** The store and the ingestion path *)

Section Store.

Variable py : Runtime.
Variable env : Env.
Variable config : Config.

(** Unfolds the monad and the primitives of the environment. *)
Ltac unfold_monad :=
  unfold logger, datetime_now_isoformat, write_file, sqlite3_connect,
    db_call, try_except, try_except_only, bind, lift, ret, raise in *.

Lemma save_sensor_data_spec (t h b : float) (m : Z) (ts : json)
    (raw : string) (w : World) :
  let k := connections w in
  exists ok w',
    save_sensor_data env config t h b m ts raw w = (Ok ok, w')
    /\ same_alerts w w'
    /\ clock_reads w' = clock_reads w
    /\ connections w' = S k
    /\ file_writes w' = file_writes w
    /\ ((ok = false /\ same_readings w w')
        \/ (exists v,
              sql_bind ts = Ok v /\ is_null v = false
              /\ fits_int64 m = true
              /\ sensor_readings w'
                 = (sensor_readings w
                      ++ [reading_row env config w k v t h b m raw])%list
              /\ sensor_readings_seq w' = S (sensor_readings_seq w)
              /\ (ok = true \/ connection_fault env k = RaiseAt 3))).
Proof.
  cbv zeta.
  unfold save_sensor_data, execute_insert_reading, commit, close.
  unfold_monad.
  destruct (connection_fault env (connections w)) as [|[|[|[|[|j]]]]] eqn:F;
    cbn.
  all: destruct (sql_bind ts) as [v|e] eqn:B; cbn.
  all: try destruct (is_null v) eqn:N; cbn.
  all: try destruct (fits_int64 m) eqn:I; cbn.
  all: eexists _, _; (split; [reflexivity|]);
    unfold same_alerts, same_readings, reading_row; cbn;
    rewrite ?Nat.add_0_r, ?Nat.add_1_r, ?app_nil_r;
    repeat match goal with |- _ /\ _ => split end; try reflexivity.
  all: solve [ left; repeat split; reflexivity
             | right; eexists; repeat split; try reflexivity; auto ].
Qed.

(** With a healthy connection and bindable values the insert succeeds,
    whatever the table holds. *)
Lemma save_sensor_data_healthy (t h b : float) (m : Z) (ts : json)
    (raw : string) (w : World) (v : sqlval) :
  connection_fault env (connections w) = NoFault ->
  sql_bind ts = Ok v -> is_null v = false -> fits_int64 m = true ->
  eval (save_sensor_data env config t h b m ts raw) w = Ok true.
Proof.
  intros F B N I.
  unfold eval, save_sensor_data, execute_insert_reading, commit, close.
  unfold_monad. rewrite F; cbn. rewrite B; cbn. rewrite N, I; cbn.
  reflexivity.
Qed.

Lemma length_alert_rows (created : string) (batch : list alert) :
  forall seq t,
    List.length (alert_rows env created seq t batch) = List.length batch.
Proof. induction batch; intros; cbn; auto. Qed.

Lemma insert_alerts_spec (batch : list alert) :
  forall (conn : Connection) (w : World),
    let r := insert_alerts env conn batch w in
    same_readings w (snd r) /\ same_alerts w (snd r)
    /\ connections (snd r) = connections w
    /\ file_writes (snd r) = file_writes w
    /\ (clock_reads w <= clock_reads (snd r))%nat
    /\ match fst r with
       | Ok conn' =>
           clock_reads (snd r) = (clock_reads w + List.length batch)%nat
           /\ c_fault conn' = c_fault conn
           /\ c_calls conn' = (c_calls conn + List.length batch)%nat
           /\ c_current_timestamp conn' = c_current_timestamp conn
           /\ pending_readings conn' = pending_readings conn
           /\ pending_alerts conn'
              = (pending_alerts conn
                   ++ alert_rows env (c_current_timestamp conn)
                        (alerts_seq w + List.length (pending_alerts conn))
                        (clock_reads w) batch)%list
       | Raise _ => True
       end.
Proof.
  induction batch as [|a rest IH]; intros conn w; cbv zeta.
  - cbn. unfold same_readings, same_alerts.
    rewrite !Nat.add_0_r, app_nil_r. repeat split; auto.
  - cbn [insert_alerts]. unfold execute_insert_alert. unfold_monad.
    destruct (faulty (c_fault conn) (c_calls conn)) eqn:F; cbn.
    + unfold same_readings, same_alerts. repeat split; auto.
    + destruct a as [[[ty msg] v] th]. cbn.
      match goal with
      | |- context [insert_alerts env ?c rest ?w1] =>
          specialize (IH c w1); cbv zeta in IH;
          destruct (insert_alerts env c rest w1) as [r w2]
      end.
      cbn in IH |- *.
      destruct IH as (R & A & C & Fw & Ck & IH).
      unfold same_readings, same_alerts in *. cbn in *.
      repeat match goal with |- _ /\ _ => split end;
        try tauto; try lia.
      destruct r as [conn'|e]; [|exact I].
      destruct IH as (Ck' & Ft & Cl & Ts & Pr & Pa).
      repeat match goal with |- _ /\ _ => split end;
        try tauto; try lia.
      rewrite Pa, length_app. cbn.
      rewrite <- app_assoc. cbn.
      rewrite Nat.add_1_r, Nat.add_succ_r. reflexivity.
Qed.

(** [save_alerts] hands [None] back whatever happened; the batch is in
    the table whole or not at all. *)
Lemma save_alerts_spec (batch : list alert) (w : World) :
  let k := connections w in
  exists w',
    save_alerts env batch w = (Ok tt, w')
    /\ same_readings w w'
    /\ connections w' = S k
    /\ file_writes w' = file_writes w
    /\ (clock_reads w <= clock_reads w')%nat
    /\ ((same_alerts w w'
         /\ exists l e, log w' = (l ++ [(ERROR, ErrorSavingAlerts e)])%list)
        \/ (alerts w'
             = (alerts w
                  ++ alert_rows env (current_timestamp env k) (alerts_seq w)
                       (clock_reads w) batch)%list
            /\ alerts_seq w' = (alerts_seq w + List.length batch)%nat)).
Proof.
  cbv zeta. unfold save_alerts, commit, close. unfold_monad.
  destruct (faulty (connection_fault env (connections w)) 0) eqn:F0; cbn.
  - eexists; split; [reflexivity|].
    unfold same_readings, same_alerts; cbn.
    repeat match goal with |- _ /\ _ => split end; auto.
    left. split; [split; reflexivity|]. eexists _, _. reflexivity.
  - match goal with
    | |- context [insert_alerts env ?c batch ?w1] =>
        pose proof (insert_alerts_spec batch c w1) as Sp;
        destruct (insert_alerts env c batch w1) as [r w2]
    end.
    cbv zeta in Sp. cbn in Sp.
    destruct Sp as (R & A & C & Fw & Ck & Sp).
    unfold same_readings, same_alerts in *.
    destruct r as [conn'|e]; cbn.
    + destruct Sp as (Ck' & Ft & Cl & Ts & Pr & Pa).
      rewrite Ft, Cl.
      destruct (faulty (connection_fault env (connections w))
                  (S (List.length batch))) eqn:F1; cbn.
      * eexists; split; [reflexivity|]. cbn.
        repeat match goal with |- _ /\ _ => split end; try tauto; try lia.
        left. split; [tauto|]. eexists _, _. reflexivity.
      * rewrite ?Ft. cbn.
        destruct (faulty (connection_fault env (connections w))
                    (S (S (List.length batch)))) eqn:F2; cbn;
          (eexists; split; [reflexivity|]); cbn;
          rewrite ?Pr, ?Pa, ?Ts, ?app_nil_r, ?Nat.add_0_r; cbn;
          rewrite ?length_alert_rows.
        all: cbn in *.
        all: repeat match goal with |- _ /\ _ => split end; try tauto; try lia.
        all: right; destruct A as [-> ->]; auto.
    + eexists; split; [reflexivity|]. cbn.
      repeat match goal with |- _ /\ _ => split end; try tauto; try lia.
      left. split; [tauto|]. eexists _, _. reflexivity.
Qed.

Lemma insert_alerts_no_fault (batch : list alert) :
  forall (conn : Connection) (w : World),
    c_fault conn = NoFault ->
    exists conn', fst (insert_alerts env conn batch w) = Ok conn'.
Proof.
  induction batch as [|a rest IH]; intros conn w F.
  - cbn. eauto.
  - cbn [insert_alerts]. unfold execute_insert_alert. unfold_monad.
    rewrite F. cbn. destruct a as [[[ty msg] v] th]. cbn.
    match goal with
    | |- context [insert_alerts env ?c rest ?w1] =>
        destruct (IH c w1 eq_refl) as [c' E];
        destruct (insert_alerts env c rest w1) as [r w2]
    end.
    cbn in E. subst r. cbn. eauto.
Qed.

(** On a healthy connection the whole batch reaches the table. *)
Lemma save_alerts_healthy (batch : list alert) (w : World) :
  connection_fault env (connections w) = NoFault ->
  alerts (exec (save_alerts env batch) w)
  = (alerts w
       ++ alert_rows env (current_timestamp env (connections w))
            (alerts_seq w) (clock_reads w) batch)%list.
Proof.
  intros F. unfold exec, save_alerts, commit, close. unfold_monad.
  rewrite F. cbn.
  match goal with
  | |- context [insert_alerts env ?c batch ?w1] =>
      set (c0 := c); set (w0 := w1);
      pose proof (insert_alerts_spec batch c0 w0) as Sp;
      destruct (insert_alerts env c0 batch w0) as [r w2] eqn:E
  end.
  cbv zeta in Sp. cbn in Sp.
  destruct Sp as (R & A & C & Fw & Ck & Sp).
  unfold same_readings, same_alerts in *.
  destruct r as [conn'|e]; cbn.
  - destruct Sp as (Ck' & Ft & Cl & Ts & Pr & Pa).
    rewrite ?Ft. cbn. rewrite ?Ft. cbn.
    rewrite Pa, Nat.add_0_r. destruct A as [-> _]. reflexivity.
  - destruct (insert_alerts_no_fault batch c0 w0 eq_refl) as [c' E'].
    rewrite E in E'. discriminate E'.
Qed.

Lemma check_alerts_spec (t h b : float) (w : World) :
  exists w',
    check_alerts py env config t h b w = (Ok tt, w')
    /\ same_readings w w'
    /\ file_writes w' = file_writes w
    /\ (clock_reads w <= clock_reads w')%nat
    /\ (connections w <= connections w')%nat
    /\ (same_alerts w w'
        \/ (alerts w'
             = (alerts w
                  ++ alert_rows env (current_timestamp env (connections w))
                       (alerts_seq w) (clock_reads w)
                       (collected_alerts py config t h b))%list
            /\ alerts_seq w'
               = (alerts_seq w
                  + List.length (collected_alerts py config t h b))%nat)).
Proof.
  unfold check_alerts.
  destruct (collected_alerts py config t h b) as [|a rest] eqn:E.
  - exists w. unfold ret, same_readings, same_alerts. intuition lia.
  - destruct (save_alerts_spec (a :: rest) w)
      as (w' & Ew & R & C & Fw & Ck & A).
    exists w'. cbv zeta in *.
    repeat match goal with |- _ /\ _ => split end; auto; try lia.
    destruct A as [[A _]|A]; [now left|now right].
Qed.

Lemma check_alerts_healthy (t h b : float) (w : World) :
  connection_fault env (connections w) = NoFault ->
  alerts (exec (check_alerts py env config t h b) w)
  = (alerts w
       ++ alert_rows env (current_timestamp env (connections w))
            (alerts_seq w) (clock_reads w)
            (collected_alerts py config t h b))%list.
Proof.
  intros F. unfold check_alerts.
  destruct (collected_alerts py config t h b) as [|a rest] eqn:E.
  - cbn. now rewrite app_nil_r.
  - now apply save_alerts_healthy.
Qed.




Lemma ingest_returns (payload : json) (hist : bool) (ra : json)
    (t h b : float) (m : Z) (w : World) :
  exists ok w', ingest py env config payload hist ra t h b m w = (Ok ok, w').
Proof.
  unfold ingest. unfold bind at 1.
  destruct (save_sensor_data_spec t h b m ra (json_dumps py payload) w)
    as (ok & w1 & E & _). rewrite E.
  destruct (ok && negb hist).
  - unfold_monad.
    destruct (check_alerts_spec t h b w1) as (w2 & E2 & _). rewrite E2.
    eauto.
  - unfold_monad. eauto.
Qed.

Lemma process_message_decoded (payload : json) (hist : bool)
    (u fields : list (string * json)) (t h b : float) (m : Z) (w : World) :
  decodes py config payload u fields t h b m ->
  process_message py env config payload hist w
  = ingest py env config payload hist (received_at_of env u w) t h b m
      (with_clock_reads (S (clock_reads w)) w).
Proof.
  intros (U & D & T & H & B & Mo).
  destruct payload as [| | | | | |d]; try discriminate U.
  cbn in U.
  destruct (ingest_returns (JObj d) hist (received_at_of env u w) t h b m
              (with_clock_reads (S (clock_reads w)) w)) as (ok & w' & E).
  rewrite E. unfold ingest in E.
  unfold process_message, try_except.
  unfold bind at 1. unfold lift at 1. cbn [py_in]. rewrite U. cbn [negb].
  unfold bind at 1. unfold lift at 1. cbn [py_getitem]. rewrite U.
  unfold bind at 1. unfold lift at 1. cbn [py_in]. rewrite D. cbn [negb].
  unfold bind at 1. unfold lift at 1. cbn [py_getitem]. rewrite D.
  unfold bind at 1. unfold datetime_now_isoformat at 1.
  unfold bind at 1. unfold lift at 1. cbn [py_get].
  unfold bind at 1. unfold lift at 1. cbn [py_get].
  unfold bind at 1. unfold lift at 1. rewrite T.
  unfold bind at 1. unfold lift at 1. cbn [py_get].
  unfold bind at 1. unfold lift at 1. rewrite H.
  unfold bind at 1. unfold lift at 1. cbn [py_get].
  unfold bind at 1. unfold lift at 1. rewrite B.
  unfold bind at 1. unfold lift at 1. cbn [py_get].
  unfold bind at 1. unfold lift at 1. rewrite Mo.
  unfold received_at_of in E. rewrite E. reflexivity.
Qed.


Ltac solve_rejected :=
  eexists; split; [reflexivity|];
  unfold same_readings, same_alerts; cbn;
  repeat match goal with |- _ /\ _ => split end;
  solve [reflexivity | lia
        | do 2 eexists; split; [reflexivity|discriminate]].

Lemma process_message_undecodable (payload : json) (hist : bool)
    (w : World) :
  decoded_of payload = None -> rejected py env config payload hist w.
Proof.
  unfold decoded_of, uplink_of, rejected, process_message.
  unfold_monad.
  destruct payload as [| |z|f|s|l|d]; cbn; intros D;
    try solve_rejected.
  - destruct (str_contains _ s); cbn; solve_rejected.
  - destruct (existsb _ l); cbn; solve_rejected.
  - destruct (dict_get "uplink_message" d) as [up|]; cbn;
      [|solve_rejected].
    destruct up as [| |z|f|s|l|u]; cbn; try solve_rejected.
    + destruct (str_contains _ s); cbn; solve_rejected.
    + destruct (existsb _ l); cbn; solve_rejected.
    + rewrite D. cbn. solve_rejected.
Qed.

Lemma decoded_of_some (payload dec : json) :
  decoded_of payload = Some dec ->
  exists u, uplink_of payload = Some (JObj u)
            /\ dict_get "decoded_payload" u = Some dec.
Proof.
  unfold decoded_of.
  destruct (uplink_of payload) as [[| | | | | |u]|]; try discriminate.
  eauto.
Qed.

(** Every message is either rejected with the store untouched or
    decoded into four values that are then handed to the store. *)
Lemma process_message_cases (payload : json) (hist : bool) (w : World) :
  rejected py env config payload hist w
  \/ exists u fields t h b m, decodes py config payload u fields t h b m.
Proof.
  destruct (decoded_of payload) as [dec|] eqn:D;
    [|left; now apply process_message_undecodable].
  destruct (decoded_of_some _ _ D) as (u & U & Du).
  destruct payload as [| | | | | |d]; try discriminate U. cbn in U.
  unfold rejected, decodes, process_message. unfold_monad.
  cbn [py_in py_getitem uplink_of]. rewrite U. cbn [negb].
  cbn [py_in py_getitem]. rewrite Du. cbn [negb py_get].
  destruct dec as [| |z|f|s|l|fields];
    try (left; cbn -[save_sensor_data check_alerts]; solve_rejected).
  cbn [py_get].
  destruct (py_float py (dict_get_or (sf_temperature (SENSOR_FIELDS config))
                            fields (JFloat PyFloat.zero)))
    as [t|e] eqn:T;
    [|left; cbn -[save_sensor_data check_alerts]; solve_rejected].
  destruct (py_float py (dict_get_or (sf_humidity (SENSOR_FIELDS config))
                            fields (JFloat PyFloat.zero)))
    as [h|e] eqn:H;
    [|left; cbn -[save_sensor_data check_alerts]; solve_rejected].
  destruct (py_float py (dict_get_or (sf_battery (SENSOR_FIELDS config))
                            fields (JFloat PyFloat.zero)))
    as [b|e] eqn:B;
    [|left; cbn -[save_sensor_data check_alerts]; solve_rejected].
  destruct (py_int py (dict_get_or (sf_motion (SENSOR_FIELDS config))
                            fields (JInt 0)))
    as [m|e] eqn:Mo;
    [|left; cbn -[save_sensor_data check_alerts]; solve_rejected].
  right. exists u, fields, t, h, b, m. repeat split; assumption.
Qed.

(** The complete effect of [ingest] on the store. *)
Lemma ingest_spec (payload : json) (hist : bool) (ra : json)
    (t h b : float) (m : Z) (w : World) :
  let k := connections w in
  exists ok w',
    ingest py env config payload hist ra t h b m w = (Ok ok, w')
    /\ eval (save_sensor_data env config t h b m ra (json_dumps py payload)) w
       = Ok ok
    /\ file_writes w' = file_writes w
    /\ (clock_reads w <= clock_reads w')%nat
    /\ (k < connections w')%nat
    /\ ((ok = false /\ same_readings w w')
        \/ (exists v,
              sql_bind ra = Ok v /\ is_null v = false
              /\ fits_int64 m = true
              /\ sensor_readings w'
                 = (sensor_readings w
                      ++ [reading_row env config w k v t h b m
                            (json_dumps py payload)])%list
              /\ sensor_readings_seq w' = S (sensor_readings_seq w)
              /\ (ok = true \/ connection_fault env k = RaiseAt 3)))
    /\ (same_alerts w w'
        \/ (ok = true /\ hist = false
            /\ alerts w'
               = (alerts w
                    ++ alert_rows env (current_timestamp env (S k))
                         (alerts_seq w) (clock_reads w)
                         (collected_alerts py config t h b))%list
            /\ alerts_seq w'
               = (alerts_seq w
                  + List.length (collected_alerts py config t h b))%nat)).
Proof.
  cbv zeta. unfold ingest. unfold bind at 1.
  destruct (save_sensor_data_spec t h b m ra (json_dumps py payload) w)
    as (ok & w1 & E & A1 & Ck1 & C1 & Fw1 & R1).
  cbv zeta in *. unfold eval. rewrite E.
  destruct (ok && negb hist) eqn:G.
  - apply andb_prop in G. destruct G as [-> G].
    apply negb_true_iff in G. subst hist.
    unfold bind at 1. unfold bind at 1.
    destruct (check_alerts_spec t h b w1)
      as (w2 & E2 & R2 & Fw2 & Ck2 & C2 & A2).
    rewrite E2. unfold logger, bind, ret. cbn.
    exists true. eexists. split; [reflexivity|]. split; [reflexivity|].
    unfold same_readings, same_alerts in *. cbn.
    destruct A1 as [A1 A1'], R2 as [R2 R2'].
    rewrite R2, R2', Fw2, Fw1.
    repeat match goal with |- _ /\ _ => split end; try lia.
    + destruct R1 as [[? ?]|R1]; [discriminate|]. right. exact R1.
    + destruct A2 as [[A2 A2']|[A2 A2']].
      * left. split; congruence.
      * right. rewrite A2, A2', A1, A1', C1, Ck1. auto.
  - unfold bind, ret. exists ok, w1. split; [reflexivity|].
    split; [reflexivity|].
    repeat match goal with |- _ /\ _ => split end; try lia; auto.
Qed.

(** The effect of one message on the two tables. *)
Lemma process_message_spec (payload : json) (hist : bool) (w : World) :
  exists ok w',
    process_message py env config payload hist w = (Ok ok, w')
    /\ file_writes w' = file_writes w
    /\ (clock_reads w <= clock_reads w')%nat
    /\ (connections w <= connections w')%nat
    /\ (exists rows,
          sensor_readings w' = (sensor_readings w ++ rows)%list
          /\ sensor_readings_seq w'
             = (sensor_readings_seq w + List.length rows)%nat
          /\ Forall (bears_device_id config) rows
          /\ (List.length rows <= 1)%nat
          /\ (ok = true -> List.length rows = 1%nat)
          /\ (List.length rows = 1%nat ->
              ok = true \/ ~ close_never_fails env))
    /\ (same_alerts w w'
        \/ (ok = true /\ hist = false
            /\ exists created t h b,
                alerts w'
                = (alerts w
                     ++ alert_rows env created (alerts_seq w)
                          (S (clock_reads w))
                          (collected_alerts py config t h b))%list
                /\ alerts_seq w'
                   = (alerts_seq w
                      + List.length (collected_alerts py config t h b))%nat)).
Proof.
  destruct (process_message_cases payload hist w)
    as [(w' & E & R & A & C & Fw & Ck & _)|(u & fields & t & h & b & m & D)].
  - exists false, w'. split; [exact E|].
    repeat match goal with |- _ /\ _ => split end; try lia; auto.
    exists []. destruct R as [R R'].
    rewrite app_nil_r, Nat.add_0_r. cbn.
    repeat split; auto; try lia; discriminate.
  - rewrite (process_message_decoded _ hist _ _ _ _ _ _ w D).
    set (w0 := with_clock_reads (S (clock_reads w)) w).
    destruct (ingest_spec payload hist (received_at_of env u w) t h b m w0)
      as (ok & w' & E & _ & Fw & Ck & C & R & A).
    cbv zeta in *. exists ok, w'. split; [exact E|].
    change (file_writes w0) with (file_writes w) in Fw.
    change (clock_reads w0) with (S (clock_reads w)) in Ck, A.
    change (connections w0) with (connections w) in C, R, A.
    change (sensor_readings w0) with (sensor_readings w) in R.
    change (sensor_readings_seq w0) with (sensor_readings_seq w) in R.
    change (alerts w0) with (alerts w) in A.
    change (alerts_seq w0) with (alerts_seq w) in A.
    unfold same_readings, same_alerts in *.
    change (sensor_readings w0) with (sensor_readings w) in R.
    change (sensor_readings_seq w0) with (sensor_readings_seq w) in R.
    change (alerts w0) with (alerts w) in A.
    change (alerts_seq w0) with (alerts_seq w) in A.
    repeat match goal with |- _ /\ _ => split end; try lia.
    + destruct R as [(-> & R & R')|(v & _ & _ & _ & R & R' & F)].
      * exists []. rewrite app_nil_r, Nat.add_0_r. cbn.
        repeat split; auto; try lia; discriminate.
      * eexists [_]. split; [exact R|]. cbn.
        repeat split; try lia.
        -- repeat constructor.
        -- intros _. destruct F as [F|F]; [now left|right].
           intros N. exact (N _ F).
    + destruct A as [A|(-> & -> & A & A')]; [now left|right].
      repeat split. eauto 10.
Qed.

Lemma added_readings_app (w w' : World) (rows : list ReadingRow) :
  sensor_readings w' = (sensor_readings w ++ rows)%list ->
  added_readings w w' = rows.
Proof.
  intros E. unfold added_readings. rewrite E, skipn_app, skipn_all.
  now rewrite Nat.sub_diag.
Qed.

Lemma added_alerts_app (w w' : World) (rows : list AlertRow) :
  alerts w' = (alerts w ++ rows)%list -> added_alerts w w' = rows.
Proof.
  intros E. unfold added_alerts. rewrite E, skipn_app, skipn_all.
  now rewrite Nat.sub_diag.
Qed.

Lemma added_alerts_same (w w' : World) :
  same_alerts w w' -> added_alerts w w' = [].
Proof.
  intros [E _]. apply added_alerts_app. now rewrite app_nil_r.
Qed.

Lemma process_lines_cons (line : string) (rest : list string) (n : nat)
    (w : World) :
  process_lines py env config (line :: rest) n w
  = bind (process_line py env config line n)
      (process_lines py env config rest) w.
Proof. reflexivity. Qed.

Lemma line_frame_nil (w w' : World) :
  sensor_readings w' = sensor_readings w ->
  sensor_readings_seq w' = sensor_readings_seq w ->
  alerts w' = alerts w -> alerts_seq w' = alerts_seq w ->
  file_writes w' = file_writes w ->
  line_frame config w w' [].
Proof.
  intros H1 H2 H3 H4 H5. unfold line_frame, same_alerts.
  rewrite app_nil_r, Nat.add_0_r. cbn. auto.
Qed.

Lemma line_frame_trans (w1 w2 w3 : World) (rows rows' : list ReadingRow) :
  line_frame config w1 w2 rows -> line_frame config w2 w3 rows' ->
  line_frame config w1 w3 (rows ++ rows').
Proof.
  unfold line_frame, same_alerts.
  intros ([A A'] & Fw & R & S1 & Dev) ([B B'] & Fw' & R' & S1' & Dev').
  rewrite R', R, S1', S1, length_app, app_assoc.
  repeat split; try congruence; try lia. now apply Forall_app.
Qed.

(** One line of the backfill: it is counted when [process_message]
    accepts it, and it raises only what [json.loads] raised that is not
    a [JSONDecodeError]. *)
Lemma process_line_spec (line : string) (n : nat) (w : World) :
  exists r w1 rows,
    process_line py env config line n w = (r, w1)
    /\ line_frame config w w1 rows
    /\ match r with
       | Ok n1 =>
           (n <= n1)%nat
           /\ (n1 - n <= List.length rows)%nat
           /\ (close_never_fails env -> List.length rows = (n1 - n)%nat)
       | Raise e =>
           rows = [] /\ e <> JSONDecodeError
           /\ nonempty (strip line) = true
           /\ json_loads py line = Raise e
       end.
Proof.
  unfold process_line.
  destruct (nonempty (strip line)) eqn:B.
  - unfold try_except_only, py_json_loads. unfold bind at 1. unfold lift.
    destruct (json_loads py line) as [data|e] eqn:J.
    + unfold bind at 1.
      destruct (process_message_spec data true w)
        as (ok & w1 & E & Fw & Ck & C
            & (rows & R & R' & Dev & L1 & L2 & L3) & A).
      rewrite E. unfold ret.
      exists (Ok (if ok then S n else n)), w1, rows.
      split; [reflexivity|]. split.
      * unfold line_frame.
        split; [destruct A as [A|(_ & A & _)]; [exact A|discriminate]|].
        auto.
      * split; [destruct ok; lia|]. split.
        -- destruct ok; [rewrite (L2 eq_refl)|]; lia.
        -- intros NF. destruct ok; [rewrite (L2 eq_refl); lia|].
           destruct rows as [|r [|r' rows]]; cbn in *; try lia.
           destruct (L3 eq_refl) as [?|N]; [discriminate|].
           destruct (N NF).
    + destruct (exn_eqb e JSONDecodeError) eqn:Ex.
      * unfold logger, bind, ret. cbn.
        eexists (Ok n), _, []. split; [reflexivity|].
        split; [apply line_frame_nil; reflexivity|].
        cbn. repeat split; auto; lia.
      * exists (Raise e), w, []. split; [reflexivity|].
        split; [apply line_frame_nil; reflexivity|].
        repeat split; auto. intros ->. discriminate Ex.
  - unfold ret. exists (Ok n), w, []. split; [reflexivity|].
    split; [apply line_frame_nil; reflexivity|].
    cbn. repeat split; auto; lia.
Qed.

(** The loop of the backfill: [processed_count] counts the messages for
    which [process_message] returned [True], and every row it adds to
    [sensor_readings] bears the configured device id. *)
Lemma process_lines_spec (lines : list string) :
  forall (n : nat) (w : World),
  exists r w' rows,
    process_lines py env config lines n w = (r, w')
    /\ line_frame config w w' rows
    /\ match r with
       | Ok n' =>
           (n <= n')%nat
           /\ (n' - n <= List.length rows)%nat
           /\ (close_never_fails env -> List.length rows = (n' - n)%nat)
       | Raise _ => True
       end.
Proof.
  induction lines as [|line rest IH]; intros n w.
  - exists (Ok n), w, []. split; [reflexivity|].
    split; [apply line_frame_nil; reflexivity|].
    rewrite Nat.sub_diag. cbn. auto.
  - rewrite process_lines_cons. unfold bind.
    destruct (process_line_spec line n w) as (r1 & w1 & rows1 & E1 & F1 & C1).
    rewrite E1. destruct r1 as [n1|e].
    + destruct (IH n1 w1) as (r & w' & rows & E & F & C).
      exists r, w', (rows1 ++ rows)%list. split; [exact E|].
      split; [exact (line_frame_trans _ _ _ _ _ F1 F)|].
      destruct r as [n'|]; [|exact I].
      destruct C1 as (Le1 & B1 & NF1), C as (Le & B2 & NF).
      rewrite length_app. repeat split; try lia.
      intros N. rewrite (NF N), (NF1 N). lia.
    + exists (Raise e), w1, rows1. auto.
Qed.



(** Whatever the answer, the backfill persists no alert and only rows
    that bear the configured device id. *)
Lemma fetch_historical_data_spec (w : World) :
  exists ok w',
    fetch_historical_data py env config w = (Ok ok, w')
    /\ same_alerts w w'
    /\ exists rows,
         sensor_readings w' = (sensor_readings w ++ rows)%list
         /\ Forall (bears_device_id config) rows.
Proof.
  assert (Hnone : forall w1,
    sensor_readings w1 = sensor_readings w ->
    alerts w1 = alerts w -> alerts_seq w1 = alerts_seq w ->
    same_alerts w w1
    /\ exists rows,
         sensor_readings w1 = (sensor_readings w ++ rows)%list
         /\ Forall (bears_device_id config) rows).
  { intros w1 H1 H2 H3. split; [split; auto|].
    exists []. rewrite app_nil_r. auto. }
  unfold fetch_historical_data, try_except.
  unfold bind at 1. unfold lift at 1.
  destruct (requests_get env) as [response|e].
  - destruct (status_code response =? 200).
    + unfold bind at 1. unfold logger at 1.
      unfold bind at 1. unfold write_file at 1. cbn [file_writes with_log].
      destruct (write_fails env (file_writes w)).
      * unfold logger, bind, ret. cbn.
        eexists _, _. split; [reflexivity|]. apply Hnone; reflexivity.
      * unfold bind at 1.
        match goal with
        | |- context [process_lines py env config ?ls 0%nat ?w1] =>
            destruct (process_lines_spec ls 0%nat w1)
              as (r & w' & rows & E & (A & Fw & R & R' & Dev) & C);
            rewrite E
        end.
        destruct r as [n|e]; unfold logger, bind, ret; cbn;
          (eexists _, _; split; [reflexivity|]);
          unfold same_alerts in *; cbn in *; (split; [exact A|]);
          exists rows; auto.
    + unfold logger, bind, ret. cbn.
      eexists _, _. split; [reflexivity|]. apply Hnone; reflexivity.
  - unfold logger, bind, ret. cbn.
    eexists _, _. split; [reflexivity|]. apply Hnone; reflexivity.
Qed.

Lemma on_message_spec (msg_payload : string) (w : World) :
  exists w',
    on_message py env config msg_payload w = (Ok tt, w')
    /\ exists rows,
         sensor_readings w' = (sensor_readings w ++ rows)%list
         /\ Forall (bears_device_id config) rows.
Proof.
  assert (Hnone : forall w1,
    sensor_readings w1 = sensor_readings w ->
    exists rows,
      sensor_readings w1 = (sensor_readings w ++ rows)%list
      /\ Forall (bears_device_id config) rows).
  { intros w1 H1. exists []. rewrite app_nil_r. auto. }
  unfold on_message, try_except, py_json_loads.
  unfold bind at 1. unfold lift at 1.
  destruct (bytes_decode py msg_payload) as [s|].
  - unfold bind at 1.
    unfold lift at 1.
    destruct (json_loads py s) as [payload|e].
    + unfold bind at 1. unfold write_file at 1.
      destruct (write_fails env (file_writes w)).
      * unfold logger. eexists. split; [reflexivity|].
        apply Hnone; reflexivity.
      * unfold bind at 1.
        match goal with
        | |- context [process_message py env config payload false ?w1] =>
            destruct (process_message_spec payload false w1)
              as (ok & w' & E & _ & _ & _ & (rows & R & _ & Dev & _) & _);
            rewrite E
        end.
        unfold ret. exists w'. split; [reflexivity|].
        exists rows. auto.
    + unfold logger. eexists. split; [reflexivity|].
      apply Hnone; reflexivity.
  - unfold logger. eexists. split; [reflexivity|].
    apply Hnone; reflexivity.
Qed.

(** The invariant of [sensor_readings] over a whole run. *)
Lemma handle_all_spec (evs : list event) :
  forall w,
  exists w',
    handle_all py env config evs w = (Ok tt, w')
    /\ exists rows,
         sensor_readings w' = (sensor_readings w ++ rows)%list
         /\ Forall (bears_device_id config) rows.
Proof.
  induction evs as [|ev rest IH]; intros w.
  - exists w. split; [reflexivity|]. exists []. now rewrite app_nil_r.
  - cbn [handle_all]. unfold bind at 1.
    assert (H1 : exists w1,
      handle py env config ev w = (Ok tt, w1)
      /\ exists rows,
           sensor_readings w1 = (sensor_readings w ++ rows)%list
           /\ Forall (bears_device_id config) rows).
    { destruct ev as [|msg]; cbn [handle].
      - destruct (fetch_historical_data_spec w) as (ok & w1 & E & _ & R).
        unfold bind, ret. rewrite E. eauto.
      - apply on_message_spec. }
    destruct H1 as (w1 & E1 & rows1 & R1 & D1). rewrite E1.
    destruct (IH w1) as (w' & E & rows & R & D).
    exists w'. split; [exact E|].
    exists (rows1 ++ rows)%list. rewrite R, R1, app_assoc.
    split; [reflexivity|]. apply Forall_app; auto.
Qed.

(** *** Alerts of the live path *)

Lemma nth_error_alert_rows (created : string) (batch : list alert) :
  forall (seq t i : nat) (a : AlertRow),
    nth_error (alert_rows env created seq t batch) i = Some a ->
    a_timestamp a = now_isoformat env (t + i).
Proof.
  induction batch as [|x rest IH]; intros seq t i a H.
  - destruct i; discriminate H.
  - destruct i as [|i]; cbn in H.
    + injection H as <-. cbn. now rewrite Nat.add_0_r.
    + rewrite Nat.add_succ_r. apply (IH _ (S t) i a H).
Qed.

(** C1 (amended): an alert persisted for a live reading carries the
    wall-clock reading taken when that alert is inserted: the [i]-th
    alert of the message carries the clock reading that follows the one
    taken for the fallback of the reading's own timestamp by [i]. The
    timestamp of the reading plays no part. *)
Theorem alert_timestamp_is_clock_reading (payload : json) (w : World)
    (i : nat) (a : AlertRow) :
  nth_error
    (added_alerts w (exec (process_message py env config payload false) w)) i
  = Some a ->
  a_timestamp a = now_isoformat env (S (clock_reads w) + i).
Proof.
  unfold exec.
  destruct (process_message_spec payload false w)
    as (ok & w' & E & _ & _ & _ & _ & A).
  rewrite E. cbn [snd].
  destruct A as [A|(_ & _ & created & t & h & b & A & _)].
  - rewrite (added_alerts_same _ _ A). destruct i; discriminate.
  - rewrite (added_alerts_app _ _ _ A). apply nth_error_alert_rows.
Qed.

(** No message leaves more than three alerts in the table. *)
Lemma at_most_three_alerts_persisted (payload : json) (hist : bool)
    (w : World) :
  (List.length
     (added_alerts w (exec (process_message py env config payload hist) w))
   <= 3)%nat.
Proof.
  unfold exec.
  destruct (process_message_spec payload hist w)
    as (ok & w' & E & _ & _ & _ & _ & A).
  rewrite E. cbn [snd].
  destruct A as [A|(_ & _ & created & t & h & b & A & _)].
  - rewrite (added_alerts_same _ _ A). cbn. lia.
  - rewrite (added_alerts_app _ _ _ A), length_alert_rows.
    apply collected_alerts_at_most_three.
Qed.

(** *** Failures of the store *)

Lemma save_sensor_data_reports (t h b : float) (m : Z) (ts : json)
    (raw : string) (w : World) :
  let r := save_sensor_data env config t h b m ts raw w in
  (fst r = Ok true
   /\ List.length (added_readings w (snd r)) = 1%nat
   /\ log (snd r) = (log w ++ [(INFO, DataSaved t h b)])%list)
  \/ (fst r = Ok false
      /\ exists e, log (snd r) = (log w ++ [(ERROR, DatabaseError e)])%list).
Proof.
  cbv zeta.
  unfold save_sensor_data, execute_insert_reading, commit, close,
    added_readings.
  unfold_monad.
  destruct (connection_fault env (connections w)) as [|[|[|[|[|j]]]]] eqn:F;
    cbn.
  all: destruct (sql_bind ts) as [v|e] eqn:B; cbn.
  all: try destruct (is_null v) eqn:N; cbn.
  all: try destruct (fits_int64 m) eqn:I; cbn.
  all: try solve [right; split; [reflexivity|eexists; reflexivity]].
  all: left; repeat split;
    rewrite skipn_app, skipn_all, Nat.sub_diag; reflexivity.
Qed.

(** C3 (amended): the insert of a reading reports a failure to its
    caller, as the value [False] after an ERROR record: it returns
    [True] only when the row is in the table. The insert of alerts
    reports nothing: [save_alerts] returns [None] whether the batch was
    persisted or not, and a failure leaves an ERROR record in the log
    as its only trace. *)
Theorem store_failures_reading_reported_alerts_logged :
  (forall t h b m ts raw w,
      let r := save_sensor_data env config t h b m ts raw w in
      (fst r = Ok true
       /\ List.length (added_readings w (snd r)) = 1%nat)
      \/ (fst r = Ok false
          /\ exists e,
              log (snd r) = (log w ++ [(ERROR, DatabaseError e)])%list))
  /\ (forall batch w,
         let r := save_alerts env batch w in
         fst r = Ok tt
         /\ ((added_alerts w (snd r) = []
              /\ exists l e,
                  log (snd r) = (l ++ [(ERROR, ErrorSavingAlerts e)])%list)
             \/ List.length (added_alerts w (snd r)) = List.length batch)).
Proof.
  split.
  - intros t h b m ts raw w. cbv zeta.
    destruct (save_sensor_data_reports t h b m ts raw w)
      as [(R & L & _)|R]; [left|right]; auto.
  - intros batch w. cbv zeta.
    destruct (save_alerts_spec batch w) as (w' & E & _ & _ & _ & _ & A).
    rewrite E. cbn [fst snd]. split; [reflexivity|].
    destruct A as [[A L]|[A _]].
    + left. split; [now apply added_alerts_same|exact L].
    + right. rewrite (added_alerts_app _ _ _ A). apply length_alert_rows.
Qed.

(** *** The backfill path *)

(** C5: a reading ingested with the historical tag persists no alert,
    whatever its values: [process_message] with [is_historical=True]
    and the whole of [fetch_historical_data] leave the [alerts] table
    as it was. *)
Theorem backfill_persists_no_alert :
  (forall payload w,
      let w' := exec (process_message py env config payload true) w in
      alerts w' = alerts w /\ added_alerts w w' = [])
  /\ (forall w,
         let w' := exec (fetch_historical_data py env config) w in
         alerts w' = alerts w /\ added_alerts w w' = []).
Proof.
  split.
  - intros payload w. cbv zeta. unfold exec.
    destruct (process_message_spec payload true w)
      as (ok & w' & E & _ & _ & _ & _ & A).
    rewrite E. cbn [snd].
    destruct A as [A|(_ & A & _)]; [|discriminate A].
    split; [apply A|now apply added_alerts_same].
  - intros w. cbv zeta. unfold exec.
    destruct (fetch_historical_data_spec w) as (ok & w' & E & A & _).
    rewrite E. cbn [snd].
    split; [apply A|now apply added_alerts_same].
Qed.

(** *** Envelopes without decoded fields *)

Lemma missing_section_warning (d : list (string * json)) (hist : bool)
    (w : World) :
  let r := process_message py env config (JObj d) hist w in
  (dict_get "uplink_message" d = None ->
   log (snd r) = (log w ++ [(WARNING, NoUplinkMessage)])%list)
  /\ (forall u,
         dict_get "uplink_message" d = Some (JObj u) ->
         dict_get "decoded_payload" u = None ->
         log (snd r) = (log w ++ [(WARNING, NoDecodedPayload)])%list).
Proof.
  cbv zeta. unfold process_message. unfold_monad. cbn [py_in py_getitem].
  split.
  - intros U. rewrite U. reflexivity.
  - intros u U D. rewrite U. cbn. rewrite D. reflexivity.
Qed.

(** C8: an envelope without the uplink section, or whose uplink has no
    decoded-fields entry, is refused: [process_message] returns [False]
    after one WARNING or ERROR record (for a mapping without the uplink
    section the warning "No uplink_message in payload", for an uplink
    mapping without decoded fields the warning "No decoded_payload in
    uplink_message"), and neither table changes: no connection is even
    opened. *)
Theorem undecodable_envelope_is_refused (payload : json) (hist : bool)
    (w : World) :
  decoded_of payload = None ->
  let r := process_message py env config payload hist w in
  fst r = Ok false
  /\ sensor_readings (snd r) = sensor_readings w
  /\ alerts (snd r) = alerts w
  /\ connections (snd r) = connections w
  /\ (exists lv msg,
         log (snd r) = (log w ++ [(lv, msg)])%list /\ lv <> INFO)
  /\ (forall d,
         payload = JObj d -> dict_get "uplink_message" d = None ->
         log (snd r) = (log w ++ [(WARNING, NoUplinkMessage)])%list)
  /\ (forall d u,
         payload = JObj d ->
         dict_get "uplink_message" d = Some (JObj u) ->
         dict_get "decoded_payload" u = None ->
         log (snd r) = (log w ++ [(WARNING, NoDecodedPayload)])%list).
Proof.
  intros D. cbv zeta.
  destruct (process_message_undecodable payload hist w D)
    as (w' & E & [R _] & [A _] & C & _ & _ & L).
  rewrite E. cbn [fst snd].
  repeat match goal with |- _ /\ _ => split end; auto.
  - intros d -> U.
    pose proof (proj1 (missing_section_warning d hist w) U) as H.
    cbv zeta in H. now rewrite E in H.
  - intros d u -> U Du.
    pose proof (proj2 (missing_section_warning d hist w) u U Du) as H.
    cbv zeta in H. now rewrite E in H.
Qed.

(** *** Duplicates *)

Lemma decodes_functional (payload : json)
    (u u' fields fields' : list (string * json))
    (t t' h h' b b' : float) (m m' : Z) :
  decodes py config payload u fields t h b m ->
  decodes py config payload u' fields' t' h' b' m' ->
  u = u' /\ fields = fields' /\ t = t' /\ h = h' /\ b = b' /\ m = m'.
Proof.
  intros (U & D & T & H & B & Mo) (U' & D' & T' & H' & B' & Mo').
  rewrite U in U'. injection U' as <-.
  rewrite D in D'. injection D' as <-.
  rewrite T in T'. rewrite H in H'. rewrite B in B'. rewrite Mo in Mo'.
  injection T' as <-. injection H' as <-. injection B' as <-.
  injection Mo' as <-. auto 10.
Qed.

(** A message that [process_message] accepted was decoded and its row
    is the last of the table. *)
Lemma process_message_true_inv (payload : json) (hist : bool)
    (w w' : World) :
  process_message py env config payload hist w = (Ok true, w') ->
  exists u fields t h b m v,
    decodes py config payload u fields t h b m
    /\ sql_bind (received_at_of env u w) = Ok v
    /\ is_null v = false
    /\ fits_int64 m = true
    /\ sensor_readings w'
       = (sensor_readings w
            ++ [reading_row env config w (connections w) v t h b m
                  (json_dumps py payload)])%list
    /\ sensor_readings_seq w' = S (sensor_readings_seq w).
Proof.
  intros E.
  destruct (process_message_cases payload hist w)
    as [(w1 & E1 & _)|(u & fields & t & h & b & m & D)].
  - rewrite E in E1. discriminate E1.
  - rewrite (process_message_decoded _ hist _ _ _ _ _ _ w D) in E.
    destruct (ingest_spec payload hist (received_at_of env u w) t h b m
                (with_clock_reads (S (clock_reads w)) w))
      as (ok & w1 & E1 & _ & _ & _ & _ & R & _).
    rewrite E in E1. injection E1 as <- <-.
    destruct R as [[? _]|(v & Bd & N & I & R & R' & _)]; [discriminate|].
    exists u, fields, t, h, b, m, v. auto 10.
Qed.

(** A decodable message meets no obstacle but the database and the
    binding of its timestamp. *)
Lemma process_message_accepts (payload : json) (hist : bool)
    (u fields : list (string * json)) (t h b : float) (m : Z) (v : sqlval)
    (w : World) :
  decodes py config payload u fields t h b m ->
  sql_bind (received_at_of env u w) = Ok v ->
  is_null v = false ->
  fits_int64 m = true ->
  connection_fault env (connections w) = NoFault ->
  exists w',
    process_message py env config payload hist w = (Ok true, w')
    /\ sensor_readings w'
       = (sensor_readings w
            ++ [reading_row env config w (connections w) v t h b m
                  (json_dumps py payload)])%list.
Proof.
  intros D Bd N I F.
  rewrite (process_message_decoded _ hist _ _ _ _ _ _ w D).
  set (w0 := with_clock_reads (S (clock_reads w)) w).
  destruct (ingest_spec payload hist (received_at_of env u w) t h b m w0)
    as (ok & w1 & E1 & Ev & _ & _ & _ & R & _).
  rewrite (save_sensor_data_healthy t h b m _ _ w0 v F Bd N I) in Ev.
  injection Ev as <-.
  exists w1. split; [exact E1|].
  destruct R as [[? _]|(v' & Bd' & _ & _ & R & _)]; [discriminate|].
  rewrite Bd in Bd'. injection Bd' as <-. exact R.
Qed.

(** C7: ingesting an envelope twice stores two rows. Once a first
    [process_message] has accepted the envelope, a second one on the
    same envelope is accepted too unless the database itself fails: the
    insert never looks at the rows already stored. The two rows have
    different ids and the same measurements, device id and raw
    payload. *)
Theorem duplicate_envelope_is_stored_twice (payload : json)
    (hist1 hist2 : bool) (w w1 : World) :
  process_message py env config payload hist1 w = (Ok true, w1) ->
  connection_fault env (connections w1) = NoFault ->
  exists w2 r1 r2,
    process_message py env config payload hist2 w1 = (Ok true, w2)
    /\ sensor_readings w2 = (sensor_readings w ++ [r1; r2])%list
    /\ r_id r1 <> r_id r2
    /\ r_temperature r1 = r_temperature r2
    /\ r_humidity r1 = r_humidity r2
    /\ r_battery_voltage r1 = r_battery_voltage r2
    /\ r_motion_count r1 = r_motion_count r2
    /\ r_device_id r1 = r_device_id r2
    /\ r_raw_data r1 = r_raw_data r2
    /\ (forall u x,
           uplink_of payload = Some (JObj u) ->
           dict_get "received_at" u = Some x ->
           r_timestamp r1 = r_timestamp r2).
Proof.
  intros E1 F.
  destruct (process_message_true_inv _ _ _ _ E1)
    as (u & fields & t & h & b & m & v & D & Bd & N & I & R1 & S1).
  assert (Bd2 : exists v2,
    sql_bind (received_at_of env u w1) = Ok v2 /\ is_null v2 = false
    /\ (forall x, dict_get "received_at" u = Some x -> v = v2)).
  { unfold received_at_of, dict_get_or in *.
    destruct (dict_get "received_at" u) as [x|].
    - exists v. auto.
    - eexists. repeat split. discriminate. }
  destruct Bd2 as (v2 & Bd2 & N2 & Same).
  destruct (process_message_accepts payload hist2 u fields t h b m v2 w1
              D Bd2 N2 I F) as (w2 & E2 & R2).
  eexists w2, _, _. split; [exact E2|].
  rewrite R2, R1, <- app_assoc. cbn [app].
  split; [reflexivity|]. cbn. rewrite S1.
  repeat split; auto.
  intros u' x U' X. destruct D as (U & _).
  rewrite U in U'. injection U' as <-. exact (Same x X).
Qed.

(** *** Missing fields *)





(** *** The device id *)

(** C10: every row of [sensor_readings] bears the configured device
    id. Whatever a message carries, the rows it adds bear
    [Config.TTN_DEVICE_ID]; and a table whose rows all bear it keeps
    that property through any run of the collector, the backfill and
    the broker messages in any order. *)
Theorem every_row_bears_the_configured_device_id :
  (forall payload hist w r,
      In r (added_readings w
              (exec (process_message py env config payload hist) w)) ->
      r_device_id r = TTN_DEVICE_ID config)
  /\ (forall evs w,
         (forall r, In r (sensor_readings w) ->
                    r_device_id r = TTN_DEVICE_ID config) ->
         forall r,
           In r (sensor_readings (exec (handle_all py env config evs) w)) ->
           r_device_id r = TTN_DEVICE_ID config).
Proof.
  split.
  - intros payload hist w r. unfold exec.
    destruct (process_message_spec payload hist w)
      as (ok & w' & E & _ & _ & _ & (rows & R & _ & Dev & _) & _).
    rewrite E. cbn [snd]. rewrite (added_readings_app _ _ _ R).
    intros H. exact (proj1 (Forall_forall _ _) Dev r H).
  - intros evs w Inv r. unfold exec.
    destruct (handle_all_spec evs w) as (w' & E & rows & R & Dev).
    rewrite E. cbn [snd]. rewrite R, in_app_iff.
    intros [H|H]; [now apply Inv|].
    exact (proj1 (Forall_forall _ _) Dev r H).
Qed.












End Store.

(** ** The examples, run *)

(** [strip] removes the whitespace of [str.isspace()], the characters
    beyond ASCII included: a no-break space (U+00A0) before the text, a
    line separator (U+2028) and a next-line control (U+0085) after it;
    a zero-width space (U+200B) is no whitespace and stays. *)
Example strip_removes_unicode_whitespace :
  strip (bytes [194; 160; 32; 123; 125; 226; 128; 168; 10; 194; 133])
  = "{}"
  /\ strip (bytes [226; 128; 139; 123; 125; 9])
     = bytes [226; 128; 139; 123; 125]
  /\ split_lines (strip (bytes [10; 97; 10; 226; 128; 168; 10; 98; 32]))
     = ["a"; bytes [226; 128; 168]; "b"]
  /\ nonempty (strip (bytes [226; 128; 168])) = false.
Proof. vm_compute. repeat split. Qed.

(** After a healthy backfill of three lines, the second malformed: two
    rows, no alert, [True] returned and the count 2 in the log. *)
Example backfill_of_three_lines :
  let r := fetch_historical_data Scenario.py
             (Scenario.env_with Scenario.body3) settings empty_world in
  fst r = Ok true
  /\ List.length (sensor_readings (snd r)) = 2%nat
  /\ alerts (snd r) = []
  /\ last (log (snd r)) (INFO, DatabaseInitialized)
     = (INFO, ProcessedRecords 2).
Proof. vm_compute. repeat split. Qed.

(** A line that holds a number too long for [int]: [json.loads] raises
    a plain [ValueError], which the handler of the loop does not catch.
    The backfill ends there and returns [False]: the record before that
    line stays persisted, the one after it is never read. *)
Example backfill_aborted_by_a_long_number :
  let r := fetch_historical_data Scenario.py
             (Scenario.env_with Scenario.body_digits) settings empty_world in
  fst r = Ok false
  /\ List.length (sensor_readings (snd r)) = 1%nat
  /\ alerts (snd r) = []
  /\ last (log (snd r)) (INFO, DatabaseInitialized)
     = (ERROR, ExceptionFetching ValueError).
Proof. vm_compute. repeat split. Qed.

(** The envelope of the specification on the live path: the reading
    36.0 / 50.0 / 3.5 / 0 and one TEMP_HIGH alert against 35.0. *)
Example live_hot_envelope :
  let w := exec (process_message Scenario.py (Scenario.env_with "") settings
                   Scenario.envelope_hot false) empty_world in
  map (fun r => (r_temperature r, r_humidity r, r_battery_voltage r,
                 r_motion_count r)) (sensor_readings w)
  = [(SqlReal (PyFloat.of_Z 36), SqlReal (PyFloat.of_Z 50),
      SqlReal (PyFloat.of_scaled 7 (-1)), 0)]
  /\ map (fun a => (a_alert_type a, a_value a, a_threshold a)) (alerts w)
     = [("TEMP_HIGH", SqlReal (PyFloat.of_Z 36), SqlReal (PyFloat.of_Z 35))].
Proof. vm_compute. split; reflexivity. Qed.

Example batch_of_hot_reading :
  collected_alerts Scenario.py settings (PyFloat.of_Z 36) (PyFloat.of_Z 50)
    (PyFloat.of_scaled 7 (-1))
  = Scenario.batch_hot.
Proof. reflexivity. Qed.

(** C1, counterexample: the live reading of the example is stamped
    2024-05-01T10:00:00Z by its envelope, and the alert persisted for it
    is stamped with the clock reading 2026-11-04T09:00:00.000250. *)
Lemma alert_timestamp_differs_from_reading :
  let w := exec (process_message Scenario.py (Scenario.env_with "") settings
                   Scenario.envelope_hot false) empty_world in
  exists r a,
    added_readings empty_world w = [r]
    /\ added_alerts empty_world w = [a]
    /\ r_timestamp r = SqlText "2024-05-01T10:00:00Z"
    /\ a_timestamp a = "2026-11-04T09:00:00.000250"
    /\ r_timestamp r <> SqlText (a_timestamp a).
Proof.
  vm_compute. eexists _, _.
  repeat split; try reflexivity. discriminate.
Qed.

Lemma alert_timestamp_is_clock_reading_witness :
  exists a,
    nth_error
      (added_alerts empty_world
         (exec (process_message Scenario.py (Scenario.env_with "") settings
                  Scenario.envelope_hot false) empty_world)) 0
    = Some a
    /\ a_timestamp a = Scenario.clock 1.
Proof.
  eexists. split.
  - vm_compute. reflexivity.
  - apply (alert_timestamp_is_clock_reading Scenario.py
             (Scenario.env_with "") settings Scenario.envelope_hot
             empty_world 0).
    vm_compute. reflexivity.
Defined.





(** C3, counterexample: with the database down for the connection of
    [save_alerts], the method returns the same [None] as when it stores
    the batch, no alert is persisted, and the caller [process_message]
    returns [True] as in the healthy run. *)
Lemma alert_failure_is_not_reported :
  let w1 := with_connections 1 empty_world in
  let down := save_alerts Scenario.env_alerts_down Scenario.batch_hot w1 in
  let up := save_alerts (Scenario.env_with "") Scenario.batch_hot w1 in
  let live env := process_message Scenario.py env settings
                    Scenario.envelope_hot false empty_world in
  fst down = Ok tt
  /\ fst up = Ok tt
  /\ alerts (snd down) = []
  /\ List.length (alerts (snd up)) = 1%nat
  /\ fst (live Scenario.env_alerts_down) = Ok true
  /\ fst (live (Scenario.env_with "")) = Ok true
  /\ alerts (snd (live Scenario.env_alerts_down)) = []
  /\ List.length (alerts (snd (live (Scenario.env_with "")))) = 1%nat.
Proof. vm_compute. repeat split. Qed.

Lemma boundary_value_raises_no_alert_witness :
  ~ In "TEMP_HIGH"
      (map alert_type
         (collected_alerts Scenario.py settings (PyFloat.of_Z 35)
            (PyFloat.of_Z 30) (PyFloat.of_Z 3)))
  /\ temperature_alerts Scenario.py settings (PyFloat.of_Z 35) = []
  /\ humidity_alerts Scenario.py settings (PyFloat.of_Z 30) = []
  /\ battery_alerts Scenario.py settings (PyFloat.of_Z 3) = [].
Proof.
  destruct (boundary_value_raises_no_alert Scenario.py settings
              (PyFloat.of_Z 35) (PyFloat.of_Z 30) (PyFloat.of_Z 3))
    as (_ & Hmax & _ & _ & Hb & Ht & Hh).
  split; [apply Hmax; reflexivity|].
  split; [apply Ht; [reflexivity|right; reflexivity]|].
  split; [apply Hh; [reflexivity|left; reflexivity]|].
  apply Hb. reflexivity.
Defined.

Lemma duplicate_envelope_is_stored_twice_witness :
  exists w2 r1 r2,
    process_message Scenario.py (Scenario.env_with "") settings
      Scenario.envelope_hot false
      (exec (process_message Scenario.py (Scenario.env_with "") settings
               Scenario.envelope_hot true) empty_world)
    = (Ok true, w2)
    /\ sensor_readings w2 = [r1; r2]
    /\ r_id r1 <> r_id r2.
Proof.
  destruct (duplicate_envelope_is_stored_twice Scenario.py
              (Scenario.env_with "") settings Scenario.envelope_hot
              true false empty_world
              (exec (process_message Scenario.py (Scenario.env_with "")
                       settings Scenario.envelope_hot true) empty_world))
    as (w2 & r1 & r2 & E & R & Id & _).
  - vm_compute. reflexivity.
  - reflexivity.
  - exists w2, r1, r2. auto.
Defined.

Lemma undecodable_envelope_is_refused_witness :
  let r := process_message Scenario.py (Scenario.env_with "") settings
             Scenario.envelope_undecoded false empty_world in
  fst r = Ok false
  /\ sensor_readings (snd r) = []
  /\ alerts (snd r) = [].
Proof.
  destruct (undecodable_envelope_is_refused Scenario.py
              (Scenario.env_with "") settings Scenario.envelope_undecoded
              false empty_world)
    as (R & Rd & A & _).
  - reflexivity.
  - cbv zeta. auto.
Defined.


Lemma every_row_bears_the_configured_device_id_witness :
  Forall (fun r => r_device_id r = "lht65n-01-temp-humidity-sensor")
    (sensor_readings
       (exec (handle_all Scenario.py (Scenario.env_with Scenario.body3)
                settings
                [Backfill; Message Scenario.line_hot;
                 Message Scenario.line_malformed])
          empty_world)).
Proof.
  apply Forall_forall.
  apply (proj2 (every_row_bears_the_configured_device_id Scenario.py
                  (Scenario.env_with Scenario.body3) settings)).
  intros r H. destruct H.
Defined.

(** ** Frames: what every step of a run preserves *)

Section Frames.

Variable R : World -> World -> Prop.
Hypothesis R_refl : forall w, R w w.
Hypothesis R_trans : forall w1 w2 w3, R w1 w2 -> R w2 w3 -> R w1 w3.

Lemma respects_ret {A : Type} (a : A) : respects R (ret a).
Proof. intros w. apply R_refl. Qed.

Lemma respects_raise {A : Type} (e : exn) : respects R (@raise A e).
Proof. intros w. apply R_refl. Qed.

Lemma respects_lift {A : Type} (r : result A) : respects R (lift r).
Proof. intros w. apply R_refl. Qed.

Lemma respects_bind {A B : Type} (m : M A) (k : A -> M B) :
  respects R m -> (forall a, respects R (k a)) -> respects R (bind m k).
Proof.
  intros Hm Hk w. unfold bind. specialize (Hm w).
  destruct (m w) as [[a|e] w1]; cbn in *.
  - apply (R_trans _ _ _ Hm). apply Hk.
  - exact Hm.
Qed.

Lemma respects_try_except {A : Type} (body : M A) (handler : exn -> M A) :
  respects R body -> (forall e, respects R (handler e)) ->
  respects R (try_except body handler).
Proof.
  intros Hm Hk w. unfold try_except. specialize (Hm w).
  destruct (body w) as [[a|e] w1]; cbn in *.
  - exact Hm.
  - apply (R_trans _ _ _ Hm). apply Hk.
Qed.

Lemma respects_try_except_only {A : Type} (cls : exn) (body : M A)
    (handler : exn -> M A) :
  respects R body -> (forall e, respects R (handler e)) ->
  respects R (try_except_only cls body handler).
Proof.
  intros Hm Hk w. unfold try_except_only. specialize (Hm w).
  destruct (body w) as [[a|e] w1]; cbn in *.
  - exact Hm.
  - destruct (exn_eqb e cls); cbn.
    + apply (R_trans _ _ _ Hm). apply Hk.
    + exact Hm.
Qed.

End Frames.

(** ** The tables only grow *)

Section Growth.

Variable py : Runtime.
Variable env : Env.
Variable config : Config.

Lemma appended_same (w w' : World) :
  same_readings w w' -> same_alerts w w' -> appended config w w'.
Proof.
  intros [R R'] [A A']. exists [], [].
  rewrite !app_nil_r, !Nat.add_0_r. cbn. repeat split; auto.
Qed.

Lemma appended_refl (w : World) : appended config w w.
Proof. apply appended_same; split; reflexivity. Qed.

Lemma appended_trans (w1 w2 w3 : World) :
  appended config w1 w2 -> appended config w2 w3 -> appended config w1 w3.
Proof.
  intros (rs & als & R & S1 & I & D & A & S2 & J & Q)
         (rs' & als' & R' & S1' & I' & D' & A' & S2' & J' & Q').
  exists (rs ++ rs')%list, (als ++ als')%list.
  rewrite R', R, A', A, S1', S1, S2', S2, !length_app, !map_app, !seq_app.
  rewrite I, J, I', J', S1, S2, <- !app_assoc, <- !Nat.add_succ_l.
  repeat split; auto using Forall_app; try lia; apply Forall_app; auto.
Qed.

(** A comparison that holds has no NaN on either side. *)
Lemma lt_true_not_nan (a b : float) :
  PyFloat.lt a b = true -> sql_real a = SqlReal a /\ sql_real b = SqlReal b.
Proof.
  unfold PyFloat.lt, SFltb, sql_real.
  destruct a, b; cbn; try discriminate; auto.
Qed.

Lemma temperature_alerts_sound (t : float) :
  Forall (alert_sound config) (temperature_alerts py config t).
Proof.
  unfold temperature_alerts.
  destruct (PyFloat.lt t (TEMPERATURE_MIN config)) eqn:L.
  - constructor; [|constructor]. unfold alert_sound. left. auto.
  - destruct (PyFloat.gt t (TEMPERATURE_MAX config)) eqn:G.
    + constructor; [|constructor]. unfold alert_sound. right; left. auto.
    + constructor.
Qed.

Lemma humidity_alerts_sound (h : float) :
  Forall (alert_sound config) (humidity_alerts py config h).
Proof.
  unfold humidity_alerts.
  destruct (PyFloat.lt h (HUMIDITY_MIN config)) eqn:L.
  - constructor; [|constructor]. unfold alert_sound.
    right; right; left. auto.
  - destruct (PyFloat.gt h (HUMIDITY_MAX config)) eqn:G.
    + constructor; [|constructor]. unfold alert_sound.
      right; right; right; left. auto.
    + constructor.
Qed.

Lemma battery_alerts_sound (b : float) :
  Forall (alert_sound config) (battery_alerts py config b).
Proof.
  unfold battery_alerts.
  destruct (PyFloat.lt b (BATTERY_LOW config)) eqn:L.
  - constructor; [|constructor]. unfold alert_sound.
    right; right; right; right. auto.
  - constructor.
Qed.

Lemma collected_alerts_sound (t h b : float) :
  Forall (alert_sound config) (collected_alerts py config t h b).
Proof.
  unfold collected_alerts.
  apply Forall_app; split; [apply temperature_alerts_sound|].
  apply Forall_app; split;
    [apply humidity_alerts_sound|apply battery_alerts_sound].
Qed.

Lemma alert_rows_ids (created : string) (batch : list alert) :
  forall seq t,
    map a_id (alert_rows env created seq t batch)
    = List.seq (S seq) (List.length batch).
Proof.
  induction batch as [|a rest IH]; intros seq t; cbn; [reflexivity|].
  now rewrite IH.
Qed.

Lemma alert_rows_sound (created : string) (batch : list alert) :
  Forall (alert_sound config) batch ->
  forall seq t,
    Forall (alert_row_sound config) (alert_rows env created seq t batch).
Proof.
  induction 1 as [|a rest Ha _ IH]; intros seq t; cbn; constructor; auto.
  destruct a as [[[kind message] value] threshold].
  split; [reflexivity|]. cbn.
  assert (N : sql_real value = SqlReal value
              /\ sql_real threshold = SqlReal threshold).
  { cbn in Ha. unfold PyFloat.gt in Ha.
    destruct Ha as [(_ & _ & L)|[(_ & _ & L)|[(_ & _ & L)|[(_ & _ & L)
                   |(_ & _ & L)]]]];
      apply lt_true_not_nan in L; tauto. }
  destruct N as [-> ->]. exists message, value, threshold. auto.
Qed.

Lemma save_sensor_data_appended (t h b : float) (m : Z) (ts : json)
    (raw : string) :
  respects (appended config) (save_sensor_data env config t h b m ts raw).
Proof.
  intros w.
  destruct (save_sensor_data_spec env config t h b m ts raw w)
    as (ok & w' & E & A & _ & _ & _ & R).
  rewrite E. cbn [snd].
  destruct R as [[_ R]|(v & _ & _ & _ & R & S1 & _)].
  - now apply appended_same.
  - destruct A as [A A'].
    exists [reading_row env config w (connections w) v t h b m raw], [].
    rewrite A, A', R, S1, app_nil_r, Nat.add_0_r, Nat.add_1_r. cbn.
    repeat split; auto. repeat constructor.
Qed.

Lemma check_alerts_appended (t h b : float) :
  respects (appended config) (check_alerts py env config t h b).
Proof.
  intros w.
  destruct (check_alerts_spec py env config t h b w)
    as (w' & E & [R R'] & _ & _ & _ & A).
  rewrite E. cbn [snd].
  destruct A as [A|[A A']].
  - apply appended_same; [split|]; auto.
  - eexists [], _. rewrite R, R', A, A', app_nil_r, Nat.add_0_r.
    rewrite length_alert_rows, alert_rows_ids. cbn.
    repeat split; auto.
    apply alert_rows_sound, collected_alerts_sound.
Qed.

Lemma logger_appended (lv : level) (msg : log_msg) :
  respects (appended config) (logger lv msg).
Proof. intros w. apply appended_same; split; reflexivity. Qed.

Lemma write_file_appended : respects (appended config) (write_file env).
Proof.
  intros w. unfold write_file.
  destruct (write_fails env (file_writes w));
    apply appended_same; split; reflexivity.
Qed.

Lemma datetime_now_appended :
  respects (appended config) (datetime_now_isoformat env).
Proof. intros w. apply appended_same; split; reflexivity. Qed.

Lemma appended_bind {A B : Type} (m : M A) (k : A -> M B) :
  respects (appended config) m ->
  (forall a, respects (appended config) (k a)) ->
  respects (appended config) (bind m k).
Proof. apply respects_bind. exact appended_trans. Qed.

Lemma appended_try_except {A : Type} (body : M A) (handler : exn -> M A) :
  respects (appended config) body ->
  (forall e, respects (appended config) (handler e)) ->
  respects (appended config) (try_except body handler).
Proof. apply respects_try_except. exact appended_trans. Qed.

Lemma appended_try_except_only {A : Type} (cls : exn) (body : M A)
    (handler : exn -> M A) :
  respects (appended config) body ->
  (forall e, respects (appended config) (handler e)) ->
  respects (appended config) (try_except_only cls body handler).
Proof. apply respects_try_except_only. exact appended_trans. Qed.

Lemma appended_ret {A : Type} (a : A) : respects (appended config) (ret a).
Proof. apply respects_ret. exact appended_refl. Qed.

Lemma appended_raise {A : Type} (e : exn) :
  respects (appended config) (@raise A e).
Proof. apply respects_raise. exact appended_refl. Qed.

Lemma appended_lift {A : Type} (r : result A) :
  respects (appended config) (lift r).
Proof. apply respects_lift. exact appended_refl. Qed.

(** Composes the frame lemmas over a method body, by its head. *)
Ltac frame :=
  repeat match goal with
         | |- respects _ (save_sensor_data _ _ _ _ _ _ _ _) =>
             apply save_sensor_data_appended
         | |- respects _ (check_alerts _ _ _ _ _ _) =>
             apply check_alerts_appended
         | |- respects _ (logger _ _) => apply logger_appended
         | |- respects _ (write_file _) => apply write_file_appended
         | |- respects _ (datetime_now_isoformat _) =>
             apply datetime_now_appended
         | |- respects _ (ret _) => apply appended_ret
         | |- respects _ (raise _) => apply appended_raise
         | |- respects _ (lift _) => apply appended_lift
         | |- respects _ (try_except_only _ _ _) =>
             apply appended_try_except_only; [|intros ?]
         | |- respects _ (try_except _ _) =>
             apply appended_try_except; [|intros ?]
         | |- respects _ (bind _ _) => apply appended_bind; [|intros ?]
         | |- respects _ (if ?c then _ else _) => destruct c
         | |- respects _ (match ?c with _ => _ end) => destruct c
         end.

Lemma process_message_appended (payload : json) (hist : bool) :
  respects (appended config) (process_message py env config payload hist).
Proof. unfold process_message. frame. Qed.

Lemma process_lines_appended (lines : list string) :
  forall n, respects (appended config) (process_lines py env config lines n).
Proof.
  induction lines as [|line rest IH]; intros n; cbn [process_lines].
  - frame.
  - apply appended_bind; [|intros ?; apply IH].
    unfold py_json_loads. frame. apply process_message_appended.
Qed.

Lemma fetch_historical_data_appended :
  respects (appended config) (fetch_historical_data py env config).
Proof. unfold fetch_historical_data. frame. apply process_lines_appended. Qed.

Lemma on_message_appended (msg_payload : string) :
  respects (appended config) (on_message py env config msg_payload).
Proof.
  unfold on_message, py_json_loads. frame. apply process_message_appended.
Qed.

Lemma handle_all_appended (evs : list event) :
  respects (appended config) (handle_all py env config evs).
Proof.
  induction evs as [|ev rest IH]; cbn [handle_all].
  - frame.
  - apply appended_bind; [|intros ?; apply IH].
    destruct ev; cbn [handle]; frame.
    + apply fetch_historical_data_appended.
    + apply on_message_appended.
Qed.

Lemma well_numbered_appended (w w' : World) :
  well_numbered w -> appended config w w' -> well_numbered w'.
Proof.
  intros [I J] (rs & als & R & S1 & I' & _ & A & S2 & J' & _).
  unfold well_numbered.
  rewrite R, A, S1, S2, !map_app, !seq_app, I, J, I', J'. cbn. auto.
Qed.

(** X1: the store is append-only. Over any run of the collector, the
    backfill and the broker messages in any order, both tables keep
    every row they had, unchanged and in place: the new tables are the
    old ones with rows added at the end. *)
Theorem store_is_append_only (evs : list event) (w : World) :
  let w' := exec (handle_all py env config evs) w in
  sensor_readings w'
  = (sensor_readings w ++ added_readings w w')%list
  /\ alerts w' = (alerts w ++ added_alerts w w')%list
  /\ firstn (List.length (sensor_readings w)) (sensor_readings w')
     = sensor_readings w
  /\ firstn (List.length (alerts w)) (alerts w') = alerts w.
Proof.
  cbv zeta. unfold exec.
  destruct (handle_all_appended evs w)
    as (rs & als & R & _ & _ & _ & A & _).
  rewrite (added_readings_app _ _ _ R), (added_alerts_app _ _ _ A), R, A.
  repeat split; rewrite firstn_app, firstn_all, Nat.sub_diag;
    cbn; now rewrite app_nil_r.
Qed.

(** X2: ids are never reused. If the ids of both tables are the numbers
    1, 2, ... up to their AUTOINCREMENT counters, as in a new database,
    they still are after any run; so no two rows of a table share an
    id. *)
Theorem ids_follow_the_counters (evs : list event) (w : World) :
  well_numbered w ->
  let w' := exec (handle_all py env config evs) w in
  well_numbered w'
  /\ NoDup (map r_id (sensor_readings w'))
  /\ NoDup (map a_id (alerts w')).
Proof.
  intros W. cbv zeta.
  pose proof (well_numbered_appended _ _ W (handle_all_appended evs w))
    as [I J].
  unfold exec. split; [split; assumption|].
  rewrite I, J. split; apply seq_NoDup.
Qed.

(** X3: no false alarm is stored. Every alert row that a run adds is
    unresolved, is of one of the five kinds, holds the threshold of the
    configuration for that kind, and holds a value strictly beyond it
    (below for the low kinds, above for the high ones); neither is a
    NaN. *)
Theorem persisted_alerts_are_sound (evs : list event) (w : World) :
  Forall (alert_row_sound config)
    (added_alerts w (exec (handle_all py env config evs) w)).
Proof.
  unfold exec.
  destruct (handle_all_appended evs w)
    as (rs & als & _ & _ & _ & _ & A & _ & _ & Q).
  now rewrite (added_alerts_app _ _ _ A).
Qed.

End Growth.

(** ** Exceptions *)

Section Escapes.

Variable py : Runtime.
Variable env : Env.
Variable config : Config.

Lemma returns_ret {A : Type} (a : A) : returns (ret a).
Proof. intros w. exists a. reflexivity. Qed.

Lemma returns_logger (lv : level) (msg : log_msg) : returns (logger lv msg).
Proof. intros w. exists tt. reflexivity. Qed.

Lemma returns_bind {A B : Type} (m : M A) (k : A -> M B) :
  returns m -> (forall a, returns (k a)) -> returns (bind m k).
Proof.
  intros Hm Hk w. unfold bind. destruct (Hm w) as [a E].
  destruct (m w) as [r w1]. cbn in E. subst r. apply Hk.
Qed.

(** A [try] whose handler returns lets nothing escape, whatever its
    body does. *)
Lemma returns_try_except {A : Type} (body : M A) (handler : exn -> M A) :
  (forall e, returns (handler e)) -> returns (try_except body handler).
Proof.
  intros Hk w. unfold try_except.
  destruct (body w) as [[a|e] w1]; [exists a; reflexivity|apply Hk].
Qed.

Lemma returns_save_sensor_data (t h b : float) (m : Z) (ts : json)
    (raw : string) :
  returns (save_sensor_data env config t h b m ts raw).
Proof.
  apply returns_try_except. intros e.
  apply returns_bind; [apply returns_logger|intros _; apply returns_ret].
Qed.

Lemma returns_save_alerts (batch : list alert) :
  returns (save_alerts env batch).
Proof. apply returns_try_except. intros e. apply returns_logger. Qed.

Lemma returns_check_alerts (t h b : float) :
  returns (check_alerts py env config t h b).
Proof.
  unfold check_alerts.
  destruct (collected_alerts py config t h b);
    [apply returns_ret|apply returns_save_alerts].
Qed.

Lemma returns_process_message (payload : json) (hist : bool) :
  returns (process_message py env config payload hist).
Proof.
  apply returns_try_except. intros e.
  apply returns_bind; [apply returns_logger|intros _; apply returns_ret].
Qed.

Lemma returns_fetch_historical_data :
  returns (fetch_historical_data py env config).
Proof.
  apply returns_try_except. intros e.
  apply returns_bind; [apply returns_logger|intros _; apply returns_ret].
Qed.

Lemma returns_on_message (msg_payload : string) :
  returns (on_message py env config msg_payload).
Proof. apply returns_try_except. intros e. apply returns_logger. Qed.

Lemma returns_handle_all (evs : list event) :
  returns (handle_all py env config evs).
Proof.
  induction evs as [|ev rest IH]; cbn [handle_all].
  - apply returns_ret.
  - apply returns_bind; [|intros _; exact IH].
    destruct ev; cbn [handle].
    + apply returns_bind;
        [apply returns_fetch_historical_data|intros _; apply returns_ret].
    + apply returns_on_message.
Qed.

(** X4: no exception escapes the ingestion path. Whatever the payload,
    the answers of the network, the faults of the database and of the
    file system, [save_sensor_data], [save_alerts], [check_alerts],
    [process_message], [fetch_historical_data] and [on_message] return
    normally, and so does any run made of backfills and broker
    messages. *)
Theorem no_exception_escapes_ingestion :
  (forall t h b m ts raw,
      returns (save_sensor_data env config t h b m ts raw))
  /\ (forall batch, returns (save_alerts env batch))
  /\ (forall t h b, returns (check_alerts py env config t h b))
  /\ (forall payload hist,
         returns (process_message py env config payload hist))
  /\ returns (fetch_historical_data py env config)
  /\ (forall msg_payload, returns (on_message py env config msg_payload))
  /\ (forall evs, returns (handle_all py env config evs)).
Proof.
  repeat split; intros.
  - apply returns_save_sensor_data.
  - apply returns_save_alerts.
  - apply returns_check_alerts.
  - apply returns_process_message.
  - apply returns_fetch_historical_data.
  - apply returns_on_message.
  - apply returns_handle_all.
Qed.

(** X5: [setup_database] never touches a stored row, and it is the one
    method that lets a database failure out. Once the data directory is
    in place ([os.makedirs] has returned): with a healthy connection it
    returns and logs "Database initialized successfully"; when the
    connection fails at [connect], at one of the three [CREATE]
    statements, at [commit] or at [close], the exception propagates to
    the caller and nothing is logged. *)
Theorem setup_database_keeps_rows_and_raises (w : World) :
  let r := setup_database env w in
  sensor_readings (snd r) = sensor_readings w
  /\ sensor_readings_seq (snd r) = sensor_readings_seq w
  /\ alerts (snd r) = alerts w
  /\ alerts_seq (snd r) = alerts_seq w
  /\ (connection_fault env (connections w) = NoFault ->
      fst r = Ok tt
      /\ log (snd r) = (log w ++ [(INFO, DatabaseInitialized)])%list)
  /\ (forall j, (j <= 5)%nat ->
                connection_fault env (connections w) = RaiseAt j ->
                fst r = Raise SqliteError /\ log (snd r) = log w).
Proof.
  cbv zeta. unfold setup_database, commit, close.
  unfold logger, sqlite3_connect, db_call, bind, ret, raise.
  destruct (connection_fault env (connections w))
    as [|[|[|[|[|[|[|j]]]]]]] eqn:F; cbn;
    rewrite ?app_nil_r, ?Nat.add_0_r.
  all: repeat match goal with |- _ /\ _ => split end; try reflexivity.
  all: try (intros E; (discriminate E || (split; reflexivity))).
  all: intros j' Hj E; try discriminate E.
  all: try (split; reflexivity).
  all: injection E as <-; lia.
Qed.

End Escapes.

(** ** The backfill *)

Section Backfill.

Variable py : Runtime.
Variable env : Env.
Variable config : Config.

(** Lines without text leave the world as it is. *)
Lemma process_lines_blank (lines : list string) (n : nat) (w : World) :
  Forall (fun line => nonempty (strip line) = false) lines ->
  process_lines py env config lines n w = (Ok n, w).
Proof.
  induction 1 as [|line rest Hl _ IH]; cbn [process_lines].
  - reflexivity.
  - unfold bind at 1. rewrite Hl. unfold ret at 1. exact IH.
Qed.

(** X6: an empty answer is a success. When the body of a 200 answer is
    empty or holds only white space, [fetch_historical_data] returns
    [True] after logging "Processed 0 historical records"; it opens no
    database connection and stores nothing. *)
Theorem empty_backfill_is_a_success (w : World) (response : Response) :
  requests_get env = Ok response ->
  status_code response = 200 ->
  write_fails env (file_writes w) = false ->
  strip (text response) = "" ->
  let r := fetch_historical_data py env config w in
  fst r = Ok true
  /\ log (snd r)
     = (log w ++ [(INFO, HistoricalFetched); (INFO, ProcessedRecords 0)])%list
  /\ sensor_readings (snd r) = sensor_readings w
  /\ alerts (snd r) = alerts w
  /\ connections (snd r) = connections w.
Proof.
  intros Rq St Wr Em. cbv zeta.
  assert (E : fetch_historical_data py env config w
              = (Ok true,
                 with_log
                   (log w ++ [(INFO, HistoricalFetched);
                              (INFO, ProcessedRecords 0)])%list
                   (with_file_writes (S (file_writes w)) w))).
  { unfold fetch_historical_data, try_except.
    unfold bind at 1. unfold lift at 1. rewrite Rq, St. cbn [Z.eqb Pos.eqb].
    unfold bind at 1. unfold logger at 1.
    unfold bind at 1. unfold write_file at 1. cbn [file_writes with_log].
    rewrite Wr. unfold bind at 1. rewrite Em. cbn [split_lines].
    rewrite process_lines_blank by (repeat constructor).
    unfold logger, bind, ret. cbn. now rewrite <- app_assoc. }
  rewrite E. cbn. auto.
Qed.

End Backfill.

(** ** The log is write-only *)

Section LogBlind.

Variable py : Runtime.
Variable env : Env.
Variable config : Config.

Lemma eq_but_log_refl (w : World) : eq_but_log w w.
Proof. repeat split. Qed.

Lemma log_blind_ret {A : Type} (a : A) : log_blind (ret a).
Proof. intros w1 w2 H. auto. Qed.

Lemma log_blind_raise {A : Type} (e : exn) : log_blind (@raise A e).
Proof. intros w1 w2 H. auto. Qed.

Lemma log_blind_lift {A : Type} (r : result A) : log_blind (lift r).
Proof. intros w1 w2 H. auto. Qed.

Lemma log_blind_bind {A B : Type} (m : M A) (k : A -> M B) :
  log_blind m -> (forall a, log_blind (k a)) -> log_blind (bind m k).
Proof.
  intros Hm Hk w1 w2 H. unfold bind. destruct (Hm w1 w2 H) as [E1 E2].
  destruct (m w1) as [r1 v1], (m w2) as [r2 v2]. cbn in *. subst r2.
  destruct r1 as [a|e]; [apply Hk; assumption|auto].
Qed.

Lemma log_blind_try_except {A : Type} (body : M A) (handler : exn -> M A) :
  log_blind body -> (forall e, log_blind (handler e)) ->
  log_blind (try_except body handler).
Proof.
  intros Hm Hk w1 w2 H. unfold try_except. destruct (Hm w1 w2 H) as [E1 E2].
  destruct (body w1) as [r1 v1], (body w2) as [r2 v2]. cbn in *. subst r2.
  destruct r1 as [a|e]; [auto|apply Hk; assumption].
Qed.

Lemma log_blind_try_except_only {A : Type} (cls : exn) (body : M A)
    (handler : exn -> M A) :
  log_blind body -> (forall e, log_blind (handler e)) ->
  log_blind (try_except_only cls body handler).
Proof.
  intros Hm Hk w1 w2 H. unfold try_except_only.
  destruct (Hm w1 w2 H) as [E1 E2].
  destruct (body w1) as [r1 v1], (body w2) as [r2 v2]. cbn in *. subst r2.
  destruct r1 as [a|e]; [auto|].
  destruct (exn_eqb e cls); [apply Hk; assumption|auto].
Qed.

(** Closes the goals about the primitives, which read single fields. *)
Ltac blind_primitive :=
  intros w1 w2 (R & S1 & A & S2 & Ck & C & Fw);
  unfold eq_but_log; cbn;
  rewrite ?R, ?S1, ?A, ?S2, ?Ck, ?C, ?Fw;
  repeat match goal with
         | |- context [if ?c then _ else _] => destruct c; cbn
         end;
  repeat split; auto.

Lemma log_blind_logger (lv : level) (msg : log_msg) :
  log_blind (logger lv msg).
Proof. unfold logger. blind_primitive. Qed.

Lemma log_blind_now : log_blind (datetime_now_isoformat env).
Proof. unfold datetime_now_isoformat. blind_primitive. Qed.

Lemma log_blind_write_file : log_blind (write_file env).
Proof. unfold write_file. blind_primitive. Qed.

Lemma log_blind_connect : log_blind (sqlite3_connect env).
Proof. unfold sqlite3_connect. blind_primitive. Qed.

Lemma log_blind_db_call (c : Connection) : log_blind (db_call c).
Proof. unfold db_call, raise, ret. blind_primitive. Qed.

(** Composes the blindness lemmas over a method body, by its head. *)
Ltac blind :=
  repeat match goal with
         | |- log_blind (logger _ _) => apply log_blind_logger
         | |- log_blind (datetime_now_isoformat _) => apply log_blind_now
         | |- log_blind (write_file _) => apply log_blind_write_file
         | |- log_blind (sqlite3_connect _) => apply log_blind_connect
         | |- log_blind (db_call _) => apply log_blind_db_call
         | |- log_blind (ret _) => apply log_blind_ret
         | |- log_blind (raise _) => apply log_blind_raise
         | |- log_blind (lift _) => apply log_blind_lift
         | |- log_blind (try_except_only _ _ _) =>
             apply log_blind_try_except_only; [|intros ?]
         | |- log_blind (try_except _ _) =>
             apply log_blind_try_except; [|intros ?]
         | |- log_blind (bind _ _) => apply log_blind_bind; [|intros ?]
         | |- log_blind (if ?c then _ else _) => destruct c
         | |- log_blind (match ?c with _ => _ end) => destruct c
         end.

Lemma log_blind_insert_reading (c : Connection) (ts : json)
    (t h b : float) (m : Z) (device_id raw : string) :
  log_blind (execute_insert_reading c ts t h b m device_id raw).
Proof. unfold execute_insert_reading. blind. blind_primitive. Qed.

Lemma log_blind_insert_alert (c : Connection) (ts : string) (a : alert) :
  log_blind (execute_insert_alert c ts a).
Proof.
  unfold execute_insert_alert. blind.
  destruct a as [[[kind message] value] threshold]. blind_primitive.
Qed.

Lemma log_blind_commit (c : Connection) : log_blind (commit c).
Proof. unfold commit. blind. blind_primitive. Qed.

Lemma log_blind_close (c : Connection) : log_blind (close c).
Proof. unfold close. blind. Qed.

Lemma log_blind_save_sensor_data (t h b : float) (m : Z) (ts : json)
    (raw : string) :
  log_blind (save_sensor_data env config t h b m ts raw).
Proof.
  unfold save_sensor_data. blind;
    auto using log_blind_insert_reading, log_blind_commit, log_blind_close.
Qed.

Lemma log_blind_insert_alerts (batch : list alert) :
  forall c, log_blind (insert_alerts env c batch).
Proof.
  induction batch as [|a rest IH]; intros c; cbn [insert_alerts].
  - blind.
  - blind; auto using log_blind_insert_alert.
Qed.

Lemma log_blind_save_alerts (batch : list alert) :
  log_blind (save_alerts env batch).
Proof.
  unfold save_alerts. blind;
    auto using log_blind_insert_alerts, log_blind_commit, log_blind_close.
Qed.

Lemma log_blind_check_alerts (t h b : float) :
  log_blind (check_alerts py env config t h b).
Proof.
  unfold check_alerts.
  destruct (collected_alerts py config t h b);
    [apply log_blind_ret|apply log_blind_save_alerts].
Qed.

Lemma log_blind_process_message (payload : json) (hist : bool) :
  log_blind (process_message py env config payload hist).
Proof.
  unfold process_message. blind;
    auto using log_blind_save_sensor_data, log_blind_check_alerts.
Qed.

Lemma log_blind_process_lines (lines : list string) :
  forall n, log_blind (process_lines py env config lines n).
Proof.
  induction lines as [|line rest IH]; intros n; cbn [process_lines].
  - blind.
  - apply log_blind_bind; [|intros ?; apply IH].
    unfold py_json_loads. blind. apply log_blind_process_message.
Qed.

Lemma bind_assoc {A B C : Type} (m : M A) (k : A -> M B) (k' : B -> M C)
    (w : World) :
  bind (bind m k) k' w = bind m (fun a => bind (k a) k') w.
Proof.
  unfold bind. destruct (m w) as [[a|e] w1]; reflexivity.
Qed.

Lemma bind_ext {A B : Type} (m : M A) (k k' : A -> M B) (w : World) :
  (forall a w', k a w' = k' a w') -> bind m k w = bind m k' w.
Proof.
  intros H. unfold bind. destruct (m w) as [[a|e] w1]; [apply H|reflexivity].
Qed.

(** The loop of the backfill composes: processing a list of lines is
    processing a first part of it and then, unless that part raised,
    the rest from the count and the world it left. *)
Lemma process_lines_app (lines1 lines2 : list string) (n : nat)
    (w : World) :
  process_lines py env config (lines1 ++ lines2) n w
  = (n1 <- process_lines py env config lines1 n ;;
     process_lines py env config lines2 n1) w.
Proof.
  revert n w. induction lines1 as [|line rest IH]; intros n w.
  - reflexivity.
  - cbn [app process_lines]. rewrite bind_assoc.
    apply bind_ext. intros n1 w1. apply IH.
Qed.

(** A line without text, or that [json.loads] refuses, changes nothing
    but the log. *)
Lemma skipped_line (line : string) (rest : list string) (n : nat)
    (w : World) :
  nonempty (strip line) = false \/ malformed py line ->
  exists w1,
    eq_but_log w1 w
    /\ process_lines py env config (line :: rest) n w
       = process_lines py env config rest n w1.
Proof.
  intros H. cbn [process_lines]. unfold bind at 1.
  destruct (nonempty (strip line)) eqn:B.
  - destruct H as [H|H]; [discriminate H|].
    unfold malformed in H.
    unfold try_except_only, py_json_loads. unfold bind at 1.
    rewrite H. unfold lift. cbn [exn_eqb].
    unfold logger, bind, ret. cbn.
    eexists. split; [|reflexivity]. repeat split.
  - unfold ret at 1. exists w. split; [apply eq_but_log_refl|reflexivity].
Qed.

(** X7: lines that are blank or malformed have no effect on what is
    stored or counted. Taking such a line out of the body, wherever it
    stands, leaves the count returned and both tables as they are with
    it; only the log differs. *)
Theorem skipped_lines_change_nothing (lines1 lines2 : list string)
    (line : string) (n : nat) (w : World) :
  nonempty (strip line) = false \/ malformed py line ->
  let with_it :=
    process_lines py env config (lines1 ++ line :: lines2) n w in
  let without := process_lines py env config (lines1 ++ lines2) n w in
  fst with_it = fst without
  /\ sensor_readings (snd with_it) = sensor_readings (snd without)
  /\ alerts (snd with_it) = alerts (snd without).
Proof.
  intros H. cbv zeta. rewrite !process_lines_app. unfold bind.
  destruct (process_lines py env config lines1 n w) as [[n1|e] w1];
    [|auto].
  destruct (skipped_line line lines2 n1 w1 H) as (w2 & Eq & ->).
  destruct (log_blind_process_lines lines2 n1 w2 w1 Eq)
    as (E & R & _ & A & _).
  auto.
Qed.

End LogBlind.

(** ** One message *)

Section Message.

Variable py : Runtime.
Variable env : Env.
Variable config : Config.

(** X8: alerts are raised only for a reading whose insert was reported
    successful. When [process_message] returns [False], on either path
    and for whatever reason, the [alerts] table is as it was. *)
Theorem failed_message_raises_no_alert (payload : json) (hist : bool)
    (w : World) :
  let r := process_message py env config payload hist w in
  fst r = Ok false ->
  alerts (snd r) = alerts w /\ added_alerts w (snd r) = [].
Proof.
  cbv zeta.
  destruct (process_message_spec py env config payload hist w)
    as (ok & w' & E & _ & _ & _ & _ & A).
  rewrite E. cbn [fst snd]. intros Ok_. injection Ok_ as ->.
  destruct A as [A|(A & _)]; [|discriminate A].
  split; [apply A|now apply added_alerts_same].
Qed.





(** X12: a sensor field that is present but null rejects the message,
    where an absent one would have been read as zero: the message is
    refused with [False] and nothing is stored. *)
Theorem null_field_rejects_message (payload : json) (hist : bool)
    (u fields : list (string * json)) (key : string) (w : World) :
  uplink_of payload = Some (JObj u) ->
  dict_get "decoded_payload" u = Some (JObj fields) ->
  In key [sf_temperature (SENSOR_FIELDS config);
          sf_humidity (SENSOR_FIELDS config);
          sf_battery (SENSOR_FIELDS config);
          sf_motion (SENSOR_FIELDS config)] ->
  dict_get key fields = Some JNull ->
  let r := process_message py env config payload hist w in
  fst r = Ok false
  /\ sensor_readings (snd r) = sensor_readings w
  /\ alerts (snd r) = alerts w
  /\ connections (snd r) = connections w.
Proof.
  intros U D K Nl. cbv zeta.
  destruct (process_message_cases py env config payload hist w)
    as [(w' & E & [R _] & [A _] & C & _)
       |(u' & fields' & t & h & b & m & U' & D' & T & H & B & Mo)].
  - rewrite E. cbn [fst snd]. auto.
  - exfalso. rewrite U in U'. injection U' as <-.
    rewrite D in D'. injection D' as <-.
    unfold dict_get_or in T, H, B, Mo.
    destruct K as [<-|[<-|[<-|[<-|[]]]]];
      rewrite Nl in *; discriminate.
Qed.

End Message.

(** ** The live path *)

Section Live.

Variable py : Runtime.
Variable env : Env.
Variable config : Config.

Lemma lt_nan_l (x : float) : PyFloat.lt S754_nan x = false.
Proof. reflexivity. Qed.

Lemma lt_nan_r (x : float) : PyFloat.lt x S754_nan = false.
Proof. destruct x; reflexivity. Qed.

(** X13: a NaN raises no alert. A measurement that is not a number is
    neither below nor above any threshold, so its check collects
    nothing; and a threshold that is a NaN never fires. *)
Theorem nan_raises_no_alert :
  temperature_alerts py config S754_nan = []
  /\ humidity_alerts py config S754_nan = []
  /\ battery_alerts py config S754_nan = []
  /\ (forall t h b,
         TEMPERATURE_MIN config = S754_nan ->
         ~ In "TEMP_LOW"
             (map alert_type (collected_alerts py config t h b)))
  /\ (forall t h b,
         TEMPERATURE_MAX config = S754_nan ->
         ~ In "TEMP_HIGH"
             (map alert_type (collected_alerts py config t h b))).
Proof.
  unfold temperature_alerts, humidity_alerts, battery_alerts, PyFloat.gt.
  change SFltb with PyFloat.lt.
  rewrite !lt_nan_l, !lt_nan_r.
  repeat split; intros t h b E K;
    apply collected_kind in K; unfold PyFloat.gt in K;
    change SFltb with PyFloat.lt in K;
    rewrite E, ?lt_nan_l, ?lt_nan_r in K;
    intuition discriminate.
Qed.

Lemma alert_rows_kinds (created : string) (batch : list alert) :
  forall seq t,
    map a_alert_type (alert_rows env created seq t batch)
    = map alert_type batch
    /\ map a_message (alert_rows env created seq t batch)
       = map (fun a => snd (fst (fst a))) batch.
Proof.
  induction batch as [|a rest IH]; intros seq t; cbn; [auto|].
  destruct (IH (S seq) (S t)) as [-> ->]. auto.
Qed.

(** [ingest], run: the insert, and on the live path the alerts and the
    INFO record of an inserted reading. *)
Lemma ingest_run (payload : json) (hist : bool) (ra : json) (t h b : float)
    (m : Z) (w0 : World) :
  exists ok w1 w2,
    save_sensor_data env config t h b m ra (json_dumps py payload) w0
    = (Ok ok, w1)
    /\ check_alerts py env config t h b w1 = (Ok tt, w2)
    /\ ingest py env config payload hist ra t h b m w0
       = if ok && negb hist
         then (Ok true,
               with_log (log w2 ++ [(INFO, NewReading ra t h b m)])%list w2)
         else (Ok ok, w1).
Proof.
  destruct (save_sensor_data_spec env config t h b m ra
              (json_dumps py payload) w0) as (ok & w1 & E & _).
  destruct (check_alerts_spec py env config t h b w1) as (w2 & E2 & _).
  exists ok, w1, w2. split; [exact E|]. split; [exact E2|].
  unfold ingest. unfold bind at 1. rewrite E.
  destruct ok, hist; cbn [andb negb]; try reflexivity.
  unfold bind at 1. unfold bind at 1. rewrite E2. reflexivity.
Qed.

(** The alerts of an accepted live message, when the connection that
    [save_alerts] opens is healthy. *)
Lemma live_alerts_persisted (payload : json)
    (u fields : list (string * json)) (t h b : float) (m : Z) (w : World) :
  decodes py config payload u fields t h b m ->
  fst (process_message py env config payload false w) = Ok true ->
  connection_fault env (S (connections w)) = NoFault ->
  alerts (snd (process_message py env config payload false w))
  = (alerts w
       ++ alert_rows env (current_timestamp env (S (connections w)))
            (alerts_seq w) (S (clock_reads w))
            (collected_alerts py config t h b))%list.
Proof.
  intros D.
  rewrite (process_message_decoded py env config _ false _ _ _ _ _ _ w D).
  set (w0 := with_clock_reads (S (clock_reads w)) w).
  destruct (ingest_run payload false (received_at_of env u w) t h b m w0)
    as (ok & w1 & w2 & E & E2 & ->).
  destruct (save_sensor_data_spec env config t h b m (received_at_of env u w)
              (json_dumps py payload) w0)
    as (ok' & w1' & E' & [A1 A1'] & Ck1 & C1 & _).
  rewrite E in E'. injection E' as <- <-.
  pose proof (check_alerts_healthy py env config t h b w1) as Hc.
  destruct ok; cbn [andb negb fst snd]; [|discriminate].
  intros _ F. unfold exec in Hc. rewrite E2 in Hc. cbn [snd] in Hc.
  rewrite C1 in Hc. specialize (Hc F).
  cbn. rewrite Hc, A1, A1', Ck1. reflexivity.
Qed.

(** X14: what the live path persists is what the evaluator collected.
    For an accepted live message whose alert connection is healthy, the
    alert rows added are as many as the tuples that [check_alerts]
    collected for its three values, with their kinds and messages in
    the same order. *)
Theorem live_alerts_match_evaluation (payload : json)
    (u fields : list (string * json)) (t h b : float) (m : Z) (w : World) :
  decodes py config payload u fields t h b m ->
  let r := process_message py env config payload false w in
  fst r = Ok true ->
  connection_fault env (S (connections w)) = NoFault ->
  let collected := collected_alerts py config t h b in
  List.length (added_alerts w (snd r)) = List.length collected
  /\ map a_alert_type (added_alerts w (snd r)) = map alert_type collected
  /\ map a_message (added_alerts w (snd r))
     = map (fun a => snd (fst (fst a))) collected.
Proof.
  intros D. cbv zeta. intros Ok_ F.
  pose proof (live_alerts_persisted payload u fields t h b m w D Ok_ F) as A.
  rewrite (added_alerts_app _ _ _ A), length_alert_rows.
  split; [reflexivity|]. apply alert_rows_kinds.
Qed.

(** X15: the two paths store the same reading. For the same envelope in
    the same world, [process_message] returns the same value and leaves
    the same [sensor_readings] table whether it is called for the
    backfill or for a live message: the tag decides on alerts only. *)
Theorem both_paths_store_the_same_reading (payload : json) (w : World) :
  let backfill := process_message py env config payload true w in
  let live := process_message py env config payload false w in
  fst backfill = fst live
  /\ sensor_readings (snd backfill) = sensor_readings (snd live)
  /\ sensor_readings_seq (snd backfill) = sensor_readings_seq (snd live).
Proof.
  cbv zeta.
  assert (Dec : forall u fields t h b m,
    decodes py config payload u fields t h b m ->
    fst (process_message py env config payload true w)
    = fst (process_message py env config payload false w)
    /\ sensor_readings (snd (process_message py env config payload true w))
       = sensor_readings
           (snd (process_message py env config payload false w))
    /\ sensor_readings_seq
         (snd (process_message py env config payload true w))
       = sensor_readings_seq
           (snd (process_message py env config payload false w))).
  { intros u fields t h b m D.
    rewrite !(process_message_decoded py env config _ _ _ _ _ _ _ _ w D).
    set (w0 := with_clock_reads (S (clock_reads w)) w).
    destruct (ingest_run payload true (received_at_of env u w) t h b m w0)
      as (ok & w1 & w2 & E & E2 & ->).
    destruct (ingest_run payload false (received_at_of env u w) t h b m w0)
      as (ok' & w1' & w2' & E' & E2' & ->).
    rewrite E in E'. injection E' as <- <-.
    rewrite E2 in E2'. injection E2' as <-.
    destruct (check_alerts_spec py env config t h b w1)
      as (w2' & E2' & [R R'] & _).
    rewrite E2 in E2'. injection E2' as <-.
    destruct ok; cbn [andb negb fst snd]; auto. }
  destruct (process_message_cases py env config payload true w)
    as [(w1 & E1 & [R1 S1] & _)|(u & fields & t & h & b & m & D)];
    [|now apply (Dec u fields t h b m)].
  destruct (process_message_cases py env config payload false w)
    as [(w2 & E2 & [R2 S2] & _)|(u & fields & t & h & b & m & D)];
    [|now apply (Dec u fields t h b m)].
  rewrite E1, E2. cbn [fst snd]. repeat split; congruence.
Qed.

(** X16: a broker message reaches the store only if it can be read. If
    the payload cannot be decoded as text, or [json.loads] raises on it,
    or the copy kept for debugging cannot be written, [on_message] logs
    one ERROR record, opens no database connection and stores nothing;
    otherwise it leaves the world that [process_message] leaves on the
    live path after the file was written. In every case it returns
    normally. *)
Theorem on_message_needs_a_readable_message (msg_payload : string)
    (w : World) :
  let r := on_message py env config msg_payload w in
  fst r = Ok tt
  /\ (bytes_decode py msg_payload = None
      \/ (exists s e, bytes_decode py msg_payload = Some s
                      /\ json_loads py s = Raise e)
      \/ write_fails env (file_writes w) = true ->
      sensor_readings (snd r) = sensor_readings w
      /\ alerts (snd r) = alerts w
      /\ connections (snd r) = connections w
      /\ exists e,
           log (snd r) = (log w ++ [(ERROR, ErrorInOnMessage e)])%list)
  /\ (forall s payload,
         bytes_decode py msg_payload = Some s ->
         json_loads py s = Ok payload ->
         write_fails env (file_writes w) = false ->
         snd r
         = snd (process_message py env config payload false
                  (with_file_writes (S (file_writes w)) w))).
Proof.
  cbv zeta.
  assert (Bad : forall e,
    on_message py env config msg_payload w
    = (Ok tt, with_log (log w ++ [(ERROR, ErrorInOnMessage e)])%list w)
    \/ on_message py env config msg_payload w
       = (Ok tt,
          with_log (log w ++ [(ERROR, ErrorInOnMessage e)])%list
            (with_file_writes (S (file_writes w)) w)) ->
    fst (on_message py env config msg_payload w) = Ok tt
    /\ sensor_readings (snd (on_message py env config msg_payload w))
       = sensor_readings w
    /\ alerts (snd (on_message py env config msg_payload w)) = alerts w
    /\ connections (snd (on_message py env config msg_payload w))
       = connections w
    /\ exists e',
         log (snd (on_message py env config msg_payload w))
         = (log w ++ [(ERROR, ErrorInOnMessage e')])%list).
  { intros e [E|E]; rewrite E; cbn; repeat split; eauto. }
  destruct (bytes_decode py msg_payload) as [s|] eqn:Bd.
  - destruct (json_loads py s) as [payload|e] eqn:Js.
    + destruct (write_fails env (file_writes w)) eqn:Wr.
      * destruct (Bad OSError) as (R & Rest).
        { right. unfold on_message, try_except, py_json_loads.
          unfold bind at 1. unfold lift at 1. rewrite Bd.
          unfold bind at 1. unfold lift at 1. rewrite Js.
          unfold bind at 1. unfold write_file. rewrite Wr.
          reflexivity. }
        split; [exact R|]. split; [intros _; exact Rest|].
        intros s' p' _ _ W'. discriminate W'.
      * assert (E : on_message py env config msg_payload w
                    = (Ok tt,
                       snd (process_message py env config payload false
                              (with_file_writes (S (file_writes w)) w)))).
        { unfold on_message, try_except, py_json_loads.
          unfold bind at 1. unfold lift at 1. rewrite Bd.
          unfold bind at 1. unfold lift at 1. rewrite Js.
          unfold bind at 1. unfold write_file. rewrite Wr.
          unfold bind at 1.
          destruct (process_message_spec py env config payload false
                      (with_file_writes (S (file_writes w)) w))
            as (ok & w' & E & _).
          rewrite E. reflexivity. }
        rewrite E. cbn [fst snd]. split; [reflexivity|]. split.
        -- intros [H|[(s' & e & H & H')|H]]; try discriminate H.
           injection H as <-. rewrite Js in H'. discriminate H'.
        -- intros s' p' H H' _. injection H as <-.
           rewrite Js in H'. injection H' as <-. reflexivity.
    + destruct (Bad e) as (R & Rest).
      { left. unfold on_message, try_except, py_json_loads.
        unfold bind at 1. unfold lift at 1. rewrite Bd.
        unfold bind at 1. unfold lift at 1. rewrite Js. reflexivity. }
      split; [exact R|]. split; [intros _; exact Rest|].
      intros s' p' H H' _. injection H as <-.
      rewrite Js in H'. discriminate H'.
  - destruct (Bad UnicodeDecodeError) as (R & Rest).
    { left. unfold on_message, try_except.
      unfold bind at 1. unfold lift at 1. rewrite Bd. reflexivity. }
    split; [exact R|]. split; [intros _; exact Rest|].
    intros s' p' H. discriminate H.
Qed.

End Live.

(** ** The properties at the examples *)

Lemma ids_follow_the_counters_witness :
  let w' := exec (handle_all Scenario.py (Scenario.env_with Scenario.body3)
                    settings [Backfill; Message Scenario.line_hot])
              empty_world in
  well_numbered w'
  /\ NoDup (map r_id (sensor_readings w'))
  /\ NoDup (map a_id (alerts w')).
Proof.
  apply (ids_follow_the_counters Scenario.py
           (Scenario.env_with Scenario.body3) settings
           [Backfill; Message Scenario.line_hot] empty_world).
  split; reflexivity.
Defined.

Lemma setup_database_keeps_rows_and_raises_witness :
  fst (setup_database (Scenario.env_with "") empty_world) = Ok tt
  /\ fst (setup_database Scenario.env_alerts_down
            (with_connections 1 empty_world)) = Raise SqliteError.
Proof.
  split.
  - apply (setup_database_keeps_rows_and_raises (Scenario.env_with "")
             empty_world).
    reflexivity.
  - apply (setup_database_keeps_rows_and_raises Scenario.env_alerts_down
             (with_connections 1 empty_world)) with (j := 0%nat).
    + lia.
    + reflexivity.
Defined.

Lemma empty_backfill_is_a_success_witness :
  let r := fetch_historical_data Scenario.py (Scenario.env_with Scenario.nl)
             settings empty_world in
  fst r = Ok true
  /\ log (snd r)
     = (log empty_world
          ++ [(INFO, HistoricalFetched); (INFO, ProcessedRecords 0)])%list
  /\ sensor_readings (snd r) = sensor_readings empty_world
  /\ alerts (snd r) = alerts empty_world
  /\ connections (snd r) = connections empty_world.
Proof.
  apply (empty_backfill_is_a_success Scenario.py
           (Scenario.env_with Scenario.nl) settings empty_world
           {| status_code := 200; text := Scenario.nl |}).
  - reflexivity.
  - reflexivity.
  - reflexivity.
  - vm_compute. reflexivity.
Defined.

Lemma skipped_lines_change_nothing_witness :
  let with_it :=
    process_lines Scenario.py (Scenario.env_with "") settings
      ([Scenario.line_hot] ++ Scenario.line_malformed :: [Scenario.line_cold])
      0 empty_world in
  let without :=
    process_lines Scenario.py (Scenario.env_with "") settings
      ([Scenario.line_hot] ++ [Scenario.line_cold]) 0 empty_world in
  fst with_it = fst without
  /\ sensor_readings (snd with_it) = sensor_readings (snd without)
  /\ alerts (snd with_it) = alerts (snd without).
Proof.
  apply (skipped_lines_change_nothing Scenario.py (Scenario.env_with "")
           settings [Scenario.line_hot] [Scenario.line_cold]
           Scenario.line_malformed 0%nat empty_world).
  right. vm_compute. reflexivity.
Defined.

(** The hot reading of the example with the database down: refused, and
    no alert for it. *)
Lemma failed_message_raises_no_alert_witness :
  let r := process_message Scenario.py
             (Scenario.env_of "" (fun _ => RaiseAt 0)) settings
             Scenario.envelope_hot false empty_world in
  alerts (snd r) = alerts empty_world
  /\ added_alerts empty_world (snd r) = [].
Proof.
  apply (failed_message_raises_no_alert Scenario.py
           (Scenario.env_of "" (fun _ => RaiseAt 0)) settings
           Scenario.envelope_hot false empty_world).
  vm_compute. reflexivity.
Defined.




Lemma null_field_rejects_message_witness :
  let r := process_message Scenario.py (Scenario.env_with "") settings
             (Scenario.envelope_at "2024-05-01T10:00:00Z"
                (JObj [("field5", JNull)]))
             false empty_world in
  fst r = Ok false
  /\ sensor_readings (snd r) = sensor_readings empty_world
  /\ alerts (snd r) = alerts empty_world
  /\ connections (snd r) = connections empty_world.
Proof.
  apply (null_field_rejects_message Scenario.py (Scenario.env_with "")
           settings
           (Scenario.envelope_at "2024-05-01T10:00:00Z"
              (JObj [("field5", JNull)]))
           false
           [("received_at", JStr "2024-05-01T10:00:00Z");
            ("decoded_payload", JObj [("field5", JNull)])]
           [("field5", JNull)] "field5" empty_world).
  - reflexivity.
  - reflexivity.
  - left. reflexivity.
  - reflexivity.
Defined.

Lemma live_alerts_match_evaluation_witness :
  let r := process_message Scenario.py (Scenario.env_with "") settings
             Scenario.envelope_hot false empty_world in
  let collected :=
    collected_alerts Scenario.py settings (PyFloat.of_Z 36) (PyFloat.of_Z 50)
      (PyFloat.of_scaled 7 (-1)) in
  List.length (added_alerts empty_world (snd r)) = List.length collected
  /\ map a_alert_type (added_alerts empty_world (snd r))
     = map alert_type collected
  /\ map a_message (added_alerts empty_world (snd r))
     = map (fun a => snd (fst (fst a))) collected.
Proof.
  apply (live_alerts_match_evaluation Scenario.py (Scenario.env_with "")
           settings Scenario.envelope_hot
           [("received_at", JStr "2024-05-01T10:00:00Z");
            ("decoded_payload", Scenario.decoded_hot)]
           [("field1", JStr "3.5"); ("field3", JStr "50.0");
            ("field4", JStr "0"); ("field5", JStr "36.0")]
           (PyFloat.of_Z 36) (PyFloat.of_Z 50) (PyFloat.of_scaled 7 (-1)) 0
           empty_world).
  - unfold decodes. repeat split; vm_compute; reflexivity.
  - vm_compute. reflexivity.
  - reflexivity.
Defined.

(** A broker message that is no JSON: one ERROR record, nothing
    stored. *)
Lemma on_message_needs_a_readable_message_witness :
  let r := on_message Scenario.py (Scenario.env_with "") settings
             Scenario.line_malformed empty_world in
  sensor_readings (snd r) = sensor_readings empty_world
  /\ alerts (snd r) = alerts empty_world
  /\ connections (snd r) = connections empty_world
  /\ exists e,
       log (snd r)
       = (log empty_world ++ [(ERROR, ErrorInOnMessage e)])%list.
Proof.
  apply (on_message_needs_a_readable_message Scenario.py
           (Scenario.env_with "") settings Scenario.line_malformed
           empty_world).
  right. left. exists Scenario.line_malformed, JSONDecodeError.
  split; vm_compute; reflexivity.
Defined.
